(** * couchspinner: ingestion of a profile export (src/App.js)

    A shallow embedding of the ingestion pipeline of [src/App.js]: the
    archive filters, the identity index ([getNamesFromJson]), the session
    cache ([setCacheValue], [loadFromCache]) and the drop handler
    ([onDrop]) of the [App] component, followed by the properties of the
    specification that were checked against them. *)

From Stdlib Require Import ZArith Ascii String Floats.SpecFloat.
From stdpp Require Import base option list strings gmap stringmap.

Local Open Scope string_scope.

(** ** JavaScript values *)

(** Exceptions that the modelled code can meet. *)
Inductive exn :=
| SyntaxError        (* JSON.parse on a text that is not JSON *)
| TypeError          (* calling something that is not a function *)
| SecurityError      (* session storage is disabled *)
| QuotaExceededError (* session storage is full *)
| DecodeError.       (* an archive, an entry or a file cannot be read *)

(** The outcome of an expression that may throw. *)
Inductive result (A : Type) :=
| Ok (a : A)
| Throw (e : exn).
Arguments Ok {A} a.
Arguments Throw {A} e.

(** A Number is an IEEE 754 binary64 value, held in its canonical form
    (the one that rounding gives), so that two equal Numbers that are not
    zero are the same term. *)
Definition number := spec_float.

(** What [JSON.parse] produces.  An object is the list of its own
    properties in property order. *)
Unset Elimination Schemes.
Inductive json :=
| JNull
| JBool (b : bool)
| JNumber (x : number)
| JString (s : string)
| JArray (items : list json)
| JObject (fields : list (string * json)).
Set Elimination Schemes.

(** A JavaScript value of the code at hand: [None] is [undefined]. *)
Definition value := option json.
Definition undefined : value := None.

(** ToBoolean. *)
Definition number_truthy (x : number) : bool :=
  match x with
  | S754_zero _ | S754_nan => false
  | _ => true
  end.

Definition truthy (v : json) : bool :=
  match v with
  | JNull => false
  | JBool b => b
  | JNumber x => number_truthy x
  | JString s => negb (String.eqb s "")
  | JArray _ | JObject _ => true
  end.

Definition to_boolean (v : value) : bool :=
  match v with
  | None => false
  | Some j => truthy j
  end.

(** [a || b] *)
Definition js_or (a b : value) : value :=
  if to_boolean a then a else b.

(** Own property of an object. *)
Fixpoint own_property (k : string) (fields : list (string * json)) : value :=
  match fields with
  | [] => undefined
  | (k', v) :: rest => if String.eqb k' k then Some v else own_property k rest
  end.

(** [o?.k] for the property names the code reads ([couch_visits],
    [host_couch_visits], [surfer_couch_visits], [surfer], [host],
    [profile], [username], [id], [display_name]): none of them is found on
    the prototype of an object, an array, a string, a number or a boolean,
    so only an own property of an object gives a value. *)
Definition optional_get (o : value) (k : string) : value :=
  match o with
  | Some (JObject fields) => own_property k fields
  | _ => undefined
  end.

Notation "o ?. k" := (optional_get o k) (at level 19, left associativity).
Notation "a '|||' b" := (js_or a b) (at level 50, left associativity).

(** ** Map *)

(** Objects are compared by identity when they are used as keys.  A
    parsed document is a tree without sharing, so the object found under
    a visit record is identified by the place of that record: the
    collection it belongs to and its index there. *)
Record ref := { collection : string; index : nat }.

(** Keys of a [Map], up to SameValueZero: primitives by value (with [-0]
    and [+0] identified), objects and arrays by identity. *)
Inductive key :=
| KUndefined
| KNull
| KBool (b : bool)
| KNumber (x : number)
| KString (s : string)
| KObject (r : ref).

Definition key_of (r : ref) (v : value) : key :=
  match v with
  | None => KUndefined
  | Some JNull => KNull
  | Some (JBool b) => KBool b
  | Some (JNumber (S754_zero _)) => KNumber (S754_zero false)
  | Some (JNumber x) => KNumber x
  | Some (JString s) => KString s
  | Some (JArray _) | Some (JObject _) => KObject r
  end.

#[global] Instance number_eq_dec : EqDecision number.
Proof. solve_decision. Defined.
#[global] Instance ref_eq_dec : EqDecision ref.
Proof. solve_decision. Defined.
#[global] Instance key_eq_dec : EqDecision key.
Proof. solve_decision. Defined.

(** The value kept for a person in the identity index. *)
Record Identity := { displayName : value; username : value }.

(** A [Map] from keys to identities, in insertion order. *)
Definition Map := list (key * Identity).

(** [names.set(k, v)]: an existing key keeps its place and takes the new
    value, a new key goes last. *)
Fixpoint Map_set (k : key) (v : Identity) (m : Map) : Map :=
  match m with
  | [] => [(k, v)]
  | (k', v') :: rest =>
      if decide (k' = k) then (k, v) :: rest else (k', v') :: Map_set k v rest
  end.

(** [names.get(k)] *)
Fixpoint Map_get (k : key) (m : Map) : option Identity :=
  match m with
  | [] => None
  | (k', v') :: rest => if decide (k' = k) then Some v' else Map_get k rest
  end.

(** ** The identity index: [getNamesFromJson] *)

(** [visit?.surfer || visit?.host || {}] *)
Definition person_of (visit : json) : value :=
  Some visit ?. "surfer" ||| Some visit ?. "host" ||| Some (JObject []).

(** The callback [collectName] of [getNamesFromJson]; [names] is the map
    it closes over and [r] the place of [visit] in the document. *)
Definition collectName (r : ref) (visit : json) (names : Map) : Map :=
  let person := person_of visit in
  let username := person ?. "username" in
  let id := person ?. "profile" ?. "id" in
  let displayName := person ?. "profile" ?. "display_name" in
  Map_set (key_of r id) {| displayName := displayName; username := username |} names.

(** [items.forEach(callback)], the elements visited by increasing index
    from [i]. *)
Fixpoint forEach_from (i : nat) (c : string) (items : list json) (names : Map) : Map :=
  match items with
  | [] => names
  | visit :: rest =>
      forEach_from (S i) c rest (collectName {| collection := c; index := i |} visit names)
  end.

(** [v.forEach(collectName)] for a truthy [v] found under the key [c]: an
    array is walked, anything else has no function [forEach]. *)
Definition forEach (c : string) (v : json) (names : Map) : result Map :=
  match v with
  | JArray items => Ok (forEach_from 0 c items names)
  | _ => Throw TypeError
  end.

(** One of the two [if (json?.couch_visits?.c) { ... .forEach(collectName) }]. *)
Definition collect_visits (c : string) (json : json) (names : Map) : result Map :=
  match Some json ?. "couch_visits" ?. c with
  | Some v => if truthy v then forEach c v names else Ok names
  | None => Ok names
  end.

Definition getNamesFromJson (json : json) : result Map :=
  let names : Map := [] in
  match collect_visits "host_couch_visits" json names with
  | Throw e => Throw e
  | Ok names =>
      match collect_visits "surfer_couch_visits" json names with
      | Throw e => Throw e
      | Ok names => Ok names
      end
  end.

(** ** The platform *)

(** What the code takes from its environment: the two functions of the
    global [JSON] object and the constant [STORAGE_PREFIX] that it imports
    from [./constants]. *)
Class Platform := {
  JSON_parse : string -> result json;
  JSON_stringify : json -> string;
  STORAGE_PREFIX : string;
}.

(** ** Archives *)

(** The bytes of a file or of an archive entry. *)
Definition Blob := string.

(** An entry of an opened archive ([ZipObject]): [content] is what
    decompressing it gives, as text for [async('string')] and as a blob
    for [async('blob')]. *)
Record ZipObject := {
  name : string;
  dir : bool;
  content : result Blob;
}.

(** An opened archive ([JSZip]): its entries in enumeration order. *)
Definition JSZip := list ZipObject.

(** [s.split(sep)] for a one-character separator. *)
Fixpoint split (sep : ascii) (s : string) : list string :=
  match s with
  | EmptyString => [EmptyString]
  | String c rest =>
      if Ascii.eqb c sep then EmptyString :: split sep rest
      else match split sep rest with
           | [] => [String c EmptyString]
           | seg :: segs => String c seg :: segs
           end
  end.

(** [l.pop()] of a list that [split] returned. *)
Definition pop (l : list string) : string := List.last l EmptyString.

(** [['jpg', 'gif', 'png'].includes(x)], [['application/zip', ...].includes(x)] *)
Definition includes (l : list string) (x : string) : bool :=
  existsb (String.eqb x) l.

(** The predicate given to [zip.filter] in [getJsonFromZip]. *)
Definition is_json_entry (zipEntry : ZipObject) : bool :=
  negb (dir zipEntry) && String.eqb (pop (split "." (name zipEntry))) "json".

(** The predicate given to [zip.filter] in [getImagesFromZip]. *)
Definition is_image_entry (zipEntry : ZipObject) : bool :=
  negb (dir zipEntry) && includes ["jpg"; "gif"; "png"] (pop (split "." (name zipEntry))).

(** [zip.filter(predicate)] *)
Definition zip_filter (p : ZipObject -> bool) (zip : JSZip) : list ZipObject :=
  List.filter p zip.

(** [zip.file(name)]: the entry of that name when it is a file, else [null]. *)
Definition zip_file (n : string) (zip : JSZip) : option ZipObject :=
  match List.find (fun e => String.eqb (name e) n) zip with
  | Some e => if dir e then None else Some e
  | None => None
  end.

(** [zip.file(name).async(...)] *)
Definition zip_file_async (n : string) (zip : JSZip) : result Blob :=
  match zip_file n zip with
  | Some e => content e
  | None => Throw TypeError
  end.

(** A dropped file.  Its bytes are represented by what the readers of the
    platform give for them: [text] is what [file.text()] (or the
    [FileReader]) resolves with, [archive] what [jszip.loadAsync(file)]
    resolves with; [lastModifiedDate] is the rendering of that date with
    [toString], when the browser sets the property. *)
Record File := {
  type : string;
  lastModifiedDate : option string;
  text : result string;
  archive : result JSZip;
}.

(** ** Session storage *)

(** [window.sessionStorage]: the items, the room there is, and whether the
    browser refuses every access. *)
Record Storage := {
  items : gmap string string;
  quota : nat;
  disabled : bool;
}.

Definition storage_size (m : gmap string string) : nat :=
  map_fold (fun k v n => String.length k + String.length v + n) 0 m.

(** [window.sessionStorage.getItem(k)] *)
Definition getItem (k : string) (st : Storage) : result (option string) :=
  if disabled st then Throw SecurityError else Ok (items st !! k).

(** [window.sessionStorage.setItem(k, v)] *)
Definition setItem (k v : string) (st : Storage) : result Storage :=
  if disabled st then Throw SecurityError
  else let items' := <[k := v]> (items st) in
       if Nat.leb (storage_size items') (quota st)
       then Ok {| items := items'; quota := quota st; disabled := disabled st |}
       else Throw QuotaExceededError.

(** ** The world of the component *)

(** The messages shown with [alert]. *)
Inductive Alert :=
| NoFiles          (* 'No files?' *)
| JustOneFile      (* 'Just one file please.' *)
| UnsupportedType  (* 'Please drop either the zip file or json file.' *)
| NoProfileInZip   (* 'Please drop a zip file which contains the profile json file.' *)
| FunkyFile.       (* 'File is little too funky for us to understand' *)

(** The state hooks of [App]. *)
Record AppState := {
  profile : json;
  profileImages : json;
  names : Map;
  fileDate : string;
  isProcessing : bool;
}.

(** Everything the component can touch: its state, the messages shown,
    the exceptions sent to Sentry and to the console, the object URLs
    created so far with the blob each one resolves to, the number of
    calls of [scrollTop], and the session storage. *)
Record World := {
  app : AppState;
  alerts : list Alert;
  sentry : list exn;
  console : list exn;
  objectURLs : gmap string Blob;
  scrolls : nat;
  sessionStorage : Storage;
}.

(** A computation on a state [S] that returns or throws. *)
Definition ST (S A : Type) : Type := S -> result A * S.

#[global] Instance ST_ret {S} : MRet (ST S) := fun A a s => (Ok a, s).
#[global] Instance ST_bind {S} : MBind (ST S) := fun A B f m s =>
  match m s with
  | (Ok a, s') => f a s'
  | (Throw e, s') => (Throw e, s')
  end.

(** [try { m } catch (error) { h error }] *)
Definition try_catch {S A} (m : ST S A) (h : exn -> ST S A) : ST S A :=
  fun s => match m s with
           | (Ok a, s') => (Ok a, s')
           | (Throw e, s') => h e s'
           end.

(** [await] of a promise that is settled with [r], and the value of an
    expression that may throw. *)
Definition await {S A} (r : result A) : ST S A := fun s => (r, s).

(** [s = f(s)] *)
Definition modify {S} (f : S -> S) : ST S unit := fun s => (Ok tt, f s).

(** Computations of the component. *)
Abbreviation M := (ST World).

Definition with_app (f : AppState -> AppState) (w : World) : World :=
  {| app := f (app w); alerts := alerts w; sentry := sentry w; console := console w;
     objectURLs := objectURLs w; scrolls := scrolls w; sessionStorage := sessionStorage w |}.

Definition setProfile (v : json) : M unit :=
  modify (with_app (fun a =>
    {| profile := v; profileImages := profileImages a; names := names a;
       fileDate := fileDate a; isProcessing := isProcessing a |})).
Definition setProfileImages (v : json) : M unit :=
  modify (with_app (fun a =>
    {| profile := profile a; profileImages := v; names := names a;
       fileDate := fileDate a; isProcessing := isProcessing a |})).
Definition setNames (v : Map) : M unit :=
  modify (with_app (fun a =>
    {| profile := profile a; profileImages := profileImages a; names := v;
       fileDate := fileDate a; isProcessing := isProcessing a |})).
Definition setFileDate (v : string) : M unit :=
  modify (with_app (fun a =>
    {| profile := profile a; profileImages := profileImages a; names := names a;
       fileDate := v; isProcessing := isProcessing a |})).
Definition setIsProcessing (v : bool) : M unit :=
  modify (with_app (fun a =>
    {| profile := profile a; profileImages := profileImages a; names := names a;
       fileDate := fileDate a; isProcessing := v |})).

Definition alert (msg : Alert) : M unit :=
  modify (fun w =>
    {| app := app w; alerts := alerts w ++ [msg]; sentry := sentry w; console := console w;
       objectURLs := objectURLs w; scrolls := scrolls w; sessionStorage := sessionStorage w |}).
Definition Sentry_captureException (e : exn) : M unit :=
  modify (fun w =>
    {| app := app w; alerts := alerts w; sentry := sentry w ++ [e]; console := console w;
       objectURLs := objectURLs w; scrolls := scrolls w; sessionStorage := sessionStorage w |}).
Definition console_error (e : exn) : M unit :=
  modify (fun w =>
    {| app := app w; alerts := alerts w; sentry := sentry w; console := console w ++ [e];
       objectURLs := objectURLs w; scrolls := scrolls w; sessionStorage := sessionStorage w |}).
Definition scrollTop : M unit :=
  modify (fun w =>
    {| app := app w; alerts := alerts w; sentry := sentry w; console := console w;
       objectURLs := objectURLs w; scrolls := S (scrolls w); sessionStorage := sessionStorage w |}).

(** [URL.createObjectURL(blob)]: a URL that no blob has yet, and that
    resolves to [blob] from now on (the code never revokes one). *)
Definition createObjectURL (blob : Blob) : M string :=
  fun w => let url := fresh_string "blob:" (objectURLs w) in
           (Ok url,
            {| app := app w; alerts := alerts w; sentry := sentry w; console := console w;
               objectURLs := <[url := blob]> (objectURLs w);
               scrolls := scrolls w; sessionStorage := sessionStorage w |}).

(** [window.sessionStorage.setItem(k, v)] in the world. *)
Definition sessionStorage_setItem (k v : string) : M unit :=
  fun w => match setItem k v (sessionStorage w) with
           | Ok st =>
               (Ok tt,
                {| app := app w; alerts := alerts w; sentry := sentry w; console := console w;
                   objectURLs := objectURLs w; scrolls := scrolls w; sessionStorage := st |})
           | Throw e => (Throw e, w)
           end.

(** [Promise.all(tasks)]: the results in the order of the tasks when all
    of them succeed; when one fails the whole fails, and the others still
    run to their end.  The tasks are run in their order: the only state
    they share is the set of object URLs, which are opaque. *)
Fixpoint Promise_all {A} (tasks : list (M A)) : M (list A) :=
  match tasks with
  | [] => mret []
  | task :: rest =>
      fun w => match task w with
               | (Ok a, w') => (l ← Promise_all rest; mret (a :: l)) w'
               | (Throw e, w') => (Throw e, snd (Promise_all rest w'))
               end
  end.

(** ** Extraction from an archive *)

Section Extraction.
Context {platform : Platform}.

Definition getJsonFromZip (zip : JSZip) : M json :=
  let files := zip_filter is_json_entry zip in
  match files with
  | [] => mret (JBool false)
  | file0 :: _ =>
      jsonString ← await (zip_file_async (name file0) zip);
      try_catch
        (json ← await (JSON_parse jsonString);
         mret json)
        (fun error =>
           Sentry_captureException error;;
           mret (JBool false))
  end.

Definition getImagesFromZip (zip : JSZip) : M (list json) :=
  let files := zip_filter is_image_entry zip in
  let imageProcessor :=
    List.map (fun file =>
      blob ← await (zip_file_async (name file) zip);
      blobUrl ← createObjectURL blob;
      mret (JObject [("blobUrl", JString blobUrl); ("id", JString (name file))]))
      files in
  images ← Promise_all imageProcessor;
  mret images.

(** The object that [extractZip] returns. *)
Record Extracted := { images : list json; json_ : json }.

Definition extractZip (file : File) : M Extracted :=
  zip ← await (archive file);
  json ← getJsonFromZip zip;
  images ← getImagesFromZip zip;
  mret {| images := images; json_ := json |}.

End Extraction.

(** ** The session cache *)

(** The local variables of [loadFromCache], which are also the object it
    returns. *)
Record Cached := {
  cachedFileDate : value;
  cachedNames : option Map;
  cachedProfile : value;
  cachedProfileImages : value;
}.

(** [let cachedFileDate; let cachedNames; ...]: all [undefined]. *)
Definition no_cache : Cached :=
  {| cachedFileDate := undefined; cachedNames := None;
     cachedProfile := undefined; cachedProfileImages := undefined |}.

(** What [getItem] returned, as a value: a string or [null]. *)
Definition item_value (i : option string) : value :=
  match i with
  | Some s => Some (JString s)
  | None => Some JNull
  end.

(** ToString of what [getItem] returned, which is what [JSON.parse]
    reads. *)
Definition item_text (i : option string) : string :=
  match i with
  | Some s => s
  | None => "null"
  end.

Section Cache.
Context {platform : Platform}.

(** [`${STORAGE_PREFIX}_${key}`] *)
Definition cache_key (key : string) : string :=
  String.append STORAGE_PREFIX (String.append "_" key).

Definition setCacheValue (key value : string) : M unit :=
  try_catch
    (sessionStorage_setItem (cache_key key) value)
    (fun error =>
       Sentry_captureException error;;
       console_error error).

(** The [try] block of [loadFromCache], on its local variables. *)
Definition loadFromCache_try (st : Storage) : ST Cached unit :=
  fileDateItem ← await (getItem (cache_key "file_date") st);
  modify (fun c =>
    {| cachedFileDate := item_value fileDateItem; cachedNames := cachedNames c;
       cachedProfile := cachedProfile c; cachedProfileImages := cachedProfileImages c |});;
  profileItem ← await (getItem (cache_key "profile") st);
  parsedProfile ← await (JSON_parse (item_text profileItem));
  modify (fun c =>
    {| cachedFileDate := cachedFileDate c; cachedNames := cachedNames c;
       cachedProfile := Some parsedProfile; cachedProfileImages := cachedProfileImages c |});;
  imagesItem ← await (getItem (cache_key "profile_images") st);
  parsedImages ← await (JSON_parse (item_text imagesItem));
  modify (fun c =>
    {| cachedFileDate := cachedFileDate c; cachedNames := cachedNames c;
       cachedProfile := cachedProfile c; cachedProfileImages := Some parsedImages |});;
  if truthy parsedProfile then
    derived ← await (getNamesFromJson parsedProfile);
    modify (fun c =>
      {| cachedFileDate := cachedFileDate c; cachedNames := Some derived;
         cachedProfile := cachedProfile c; cachedProfileImages := cachedProfileImages c |})
  else mret tt.

Definition loadFromCache : M Cached :=
  fun w =>
    match loadFromCache_try (sessionStorage w) no_cache with
    | (Ok _, c) => (Ok c, w)
    | (Throw error, c) =>
        (Sentry_captureException error;;
         console_error error;;
         mret c) w
    end.

End Cache.

(** ** The component *)

Section App.
Context {platform : Platform}.

(** [EXAMPLE_PROFILE] *)
Definition EXAMPLE_PROFILE : json := JString "".

(** The first render of [App]: the state hooks take the cached values,
    or their defaults.  [isStorageAvailable] is the result of
    [testStorage('sessionStorage')]. *)
Definition App (isStorageAvailable : bool) : M unit :=
  c ← (if isStorageAvailable then loadFromCache else mret no_cache);
  modify (with_app (fun _ =>
    {| profile := default EXAMPLE_PROFILE (cachedProfile c ||| Some EXAMPLE_PROFILE);
       profileImages := default (JArray []) (cachedProfileImages c ||| Some (JArray []));
       names := default [] (cachedNames c);
       fileDate := match cachedFileDate c ||| Some (JString "") with
                   | Some (JString s) => s
                   | _ => ""
                   end;
       isProcessing := false |})).

(** The effect that stores the state for the browser session; it runs
    after a render in which [profile], [profileImages] or [fileDate]
    changed. *)
Definition App_effect (isStorageAvailable : bool) : M unit :=
  fun w =>
    (if isStorageAvailable then
       setCacheValue "file_date" (fileDate (app w));;
       setCacheValue "profile_images" (JSON_stringify (profileImages (app w)));;
       setCacheValue "profile" (JSON_stringify (profile (app w)))
     else mret tt) w.

(** [readBlobFile(file)] *)
Definition readBlobFile (file : File) : M string := await (text file).

(** The drop handler.  Each [return alert(...)] ends the handler; the
    last statement [setIsProcessing(false)] is written at the end of
    each branch that reaches it. *)
Definition onDrop (acceptedFiles : option (list File)) : M unit :=
  setIsProcessing true;;
  match acceptedFiles with
  | None | Some [] =>
      setIsProcessing false;;
      alert NoFiles
  | Some (file :: others) =>
      if negb (Nat.eqb (length (file :: others)) 1) then
        setIsProcessing false;;
        alert JustOneFile
      else if negb (includes ["application/zip"; "application/json"] (type file)) then
        setIsProcessing false;;
        alert UnsupportedType
      else
        match lastModifiedDate file with
        | Some date => setFileDate date
        | None => mret tt
        end;;
        if String.eqb (type file) "application/zip" then
          extracted ← extractZip file;
          let json := json_ extracted in
          let images := images extracted in
          if negb (truthy json) then
            setIsProcessing false;;
            alert NoProfileInZip
          else
            names ← await (getNamesFromJson json);
            setProfile json;;
            setNames names;;
            setProfileImages (JArray images);;
            scrollTop;;
            setIsProcessing false
        else if String.eqb (type file) "application/json" then
          jsonProfile ← readBlobFile file;
          try_catch
            (json ← await (JSON_parse jsonProfile);
             names ← await (getNamesFromJson json);
             setProfile json;;
             setNames names;;
             scrollTop)
            (fun error =>
               Sentry_captureException error;;
               console_error error;;
               alert FunkyFile);;
          setIsProcessing false
        else
          setIsProcessing false
  end.

End App.

(** ** A reference implementation of the platform *)

(** [JSON.parse] and [JSON.stringify] on values that hold no function,
    symbol or [undefined], written from ECMA-262 (sections 25.5.1, 25.5.2
    and 6.1.6.1.20), to run the code on concrete texts.  A string holds
    the UTF-8 bytes of its text, an unpaired surrogate being encoded like
    any other code point of its size. *)
Module Reference.

Local Open Scope Z_scope.

Definition is_ws (c : ascii) : bool :=
  let n := Z.of_N (N_of_ascii c) in
  (n =? 32) || (n =? 9) || (n =? 10) || (n =? 13).

Fixpoint skip_ws (s : string) : string :=
  match s with
  | String c rest => if is_ws c then skip_ws rest else s
  | EmptyString => s
  end.

Definition digit_of (c : ascii) : option Z :=
  let n := Z.of_N (N_of_ascii c) in
  if (48 <=? n) && (n <=? 57) then Some (n - 48) else None.

Definition hex_of (c : ascii) : option Z :=
  let n := Z.of_N (N_of_ascii c) in
  if (48 <=? n) && (n <=? 57) then Some (n - 48)
  else if (65 <=? n) && (n <=? 70) then Some (n - 55)
  else if (97 <=? n) && (n <=? 102) then Some (n - 87)
  else None.

(** A run of decimal digits: its value after [acc], how many there
    were after [count], and what follows. *)
Fixpoint digits (acc count : Z) (s : string) : Z * Z * string :=
  match s with
  | String c rest =>
      match digit_of c with
      | Some d => digits (acc * 10 + d) (count + 1) rest
      | None => (acc, count, s)
      end
  | EmptyString => (acc, count, s)
  end.

(** The Number nearest to [d * 10 ^ e], ties to even; [neg] is its
    sign. *)
Definition decimal_to_number (neg : bool) (d e : Z) : number :=
  if d =? 0 then S754_zero neg
  else if 0 <=? e then
    binary_normalize 53 1024 (cond_Zopp neg (d * 10 ^ e)) 0 false
  else
    let den := 10 ^ (- e) in
    let s := 64 + Z.log2_up den in
    let num := d * 2 ^ s in
    let sticky := if num mod den =? 0 then 0 else 1 in
    binary_normalize 53 1024 (cond_Zopp neg (2 * (num / den) + sticky)) (- (s + 1)) false.

Definition parse_int (s : string) : option (Z * string) :=
  match s with
  | String c rest =>
      match digit_of c with
      | Some 0 => Some (0, rest)
      | Some d => let '(v, _, rest') := digits d 1 rest in Some (v, rest')
      | None => None
      end
  | EmptyString => None
  end.

Definition parse_frac (s : string) : option (Z * Z * string) :=
  match s with
  | String "." rest =>
      let '(v, n, rest') := digits 0 0 rest in
      if n =? 0 then None else Some (v, n, rest')
  | _ => Some (0, 0, s)
  end.

Definition parse_exp (s : string) : option (Z * string) :=
  match s with
  | String c rest =>
      if Ascii.eqb c "e" || Ascii.eqb c "E" then
        let '(neg, rest1) :=
          match rest with
          | String "-" r => (true, r)
          | String "+" r => (false, r)
          | _ => (false, rest)
          end in
        let '(v, n, rest2) := digits 0 0 rest1 in
        if n =? 0 then None else Some (cond_Zopp neg v, rest2)
      else Some (0, s)
  | EmptyString => Some (0, s)
  end.

Definition parse_number (s : string) : option (number * string) :=
  let '(neg, s1) := match s with String "-" r => (true, r) | _ => (false, s) end in
  '(i, s2) ← parse_int s1;
  '(f, n, s3) ← parse_frac s2;
  '(e, s4) ← parse_exp s3;
  Some (decimal_to_number neg (i * 10 ^ n + f) (e - n), s4).

Definition byte (n : Z) : ascii := ascii_of_N (Z.to_N n).

(** The UTF-8 bytes of a code point. *)
Definition utf8 (cp : Z) : string :=
  if cp <? 128 then String (byte cp) EmptyString
  else if cp <? 2048 then
    String (byte (192 + cp / 64)) (String (byte (128 + cp mod 64)) EmptyString)
  else if cp <? 65536 then
    String (byte (224 + cp / 4096))
      (String (byte (128 + (cp / 64) mod 64)) (String (byte (128 + cp mod 64)) EmptyString))
  else
    String (byte (240 + cp / 262144))
      (String (byte (128 + (cp / 4096) mod 64))
         (String (byte (128 + (cp / 64) mod 64)) (String (byte (128 + cp mod 64)) EmptyString))).

Definition hex4 (s : string) : option (Z * string) :=
  match s with
  | String a (String b (String c (String d rest))) =>
      x ← hex_of a; y ← hex_of b; z ← hex_of c; w ← hex_of d;
      Some (((x * 16 + y) * 16 + z) * 16 + w, rest)
  | _ => None
  end.

(** The characters of a string literal after its opening quote, and
    what follows its closing quote. *)
Fixpoint string_chars (fuel : nat) (s : string) : option (string * string) :=
  match fuel with
  | O => None
  | S fuel =>
      match s with
      | EmptyString => None
      | String "034" rest => Some (EmptyString, rest)
      | String "092" (String "u" rest) =>
          '(u, rest1) ← hex4 rest;
          let '(cp, rest2) :=
            if (55296 <=? u) && (u <=? 56319) then
              match rest1 with
              | String "092" (String "u" rest') =>
                  match hex4 rest' with
                  | Some (l, rest'') =>
                      if (56320 <=? l) && (l <=? 57343)
                      then (65536 + (u - 55296) * 1024 + (l - 56320), rest'')
                      else (u, rest1)
                  | None => (u, rest1)
                  end
              | _ => (u, rest1)
              end
            else (u, rest1) in
          '(tail, rest3) ← string_chars fuel rest2;
          Some (String.append (utf8 cp) tail, rest3)
      | String "092" (String e rest) =>
          c ← (if Ascii.eqb e "034" then Some "034"%char
               else if Ascii.eqb e "092" then Some "092"%char
               else if Ascii.eqb e "/" then Some "/"%char
               else if Ascii.eqb e "b" then Some (byte 8)
               else if Ascii.eqb e "f" then Some (byte 12)
               else if Ascii.eqb e "n" then Some (byte 10)
               else if Ascii.eqb e "r" then Some (byte 13)
               else if Ascii.eqb e "t" then Some (byte 9)
               else None);
          '(tail, rest') ← string_chars fuel rest;
          Some (String c tail, rest')
      | String c rest =>
          if Z.of_N (N_of_ascii c) <? 32 then None
          else '(tail, rest') ← string_chars fuel rest;
               Some (String c tail, rest')
      end
  end.

Definition parse_string (s : string) : option (string * string) :=
  match s with
  | String "034" rest => string_chars (S (String.length rest)) rest
  | _ => None
  end.

Fixpoint strip_prefix (p s : string) : option string :=
  match p, s with
  | EmptyString, _ => Some s
  | String a p', String b s' => if Ascii.eqb a b then strip_prefix p' s' else None
  | _, _ => None
  end.

(** Whether [k] is an array index: the canonical decimal form of an
    integer below [2 ^ 32 - 1]. *)
Definition array_index (k : string) : option Z :=
  match parse_int k with
  | Some (v, EmptyString) => if v <? 4294967295 then Some v else None
  | _ => None
  end.

(** The place where a new key goes among the properties of an ordinary
    object: array indices first, by increasing value, then the other
    keys in the order of their creation. *)
Fixpoint insert_index (i : Z) (k : string) (v : json) (fields : list (string * json))
  : list (string * json) :=
  match fields with
  | [] => [(k, v)]
  | (k', v') :: rest =>
      match array_index k' with
      | Some j => if j <? i then (k', v') :: insert_index i k v rest
                  else (k, v) :: fields
      | None => (k, v) :: fields
      end
  end.

(** CreateDataProperty on an ordinary object. *)
Definition define_property (k : string) (v : json) (fields : list (string * json))
  : list (string * json) :=
  if existsb (fun f => String.eqb (fst f) k) fields then
    List.map (fun f => if String.eqb (fst f) k then (k, v) else f) fields
  else
    match array_index k with
    | Some i => insert_index i k v fields
    | None => fields ++ [(k, v)]
    end.

(** A JSON value at the head of [s], and what follows it. *)
Fixpoint parse_value (fuel : nat) (s : string) : option (json * string) :=
  match fuel with
  | O => None
  | S fuel =>
      match s with
      | String "[" rest =>
          match skip_ws rest with
          | String "]" rest' => Some (JArray [], rest')
          | rest' => '(l, rest'') ← parse_elements fuel rest'; Some (JArray l, rest'')
          end
      | String "{" rest =>
          match skip_ws rest with
          | String "}" rest' => Some (JObject [], rest')
          | rest' => '(l, rest'') ← parse_members fuel [] rest'; Some (JObject l, rest'')
          end
      | String "034" _ => '(str, rest) ← parse_string s; Some (JString str, rest)
      | String "n" _ => rest ← strip_prefix "null" s; Some (JNull, rest)
      | String "t" _ => rest ← strip_prefix "true" s; Some (JBool true, rest)
      | String "f" _ => rest ← strip_prefix "false" s; Some (JBool false, rest)
      | _ => '(x, rest) ← parse_number s; Some (JNumber x, rest)
      end
  end
with parse_elements (fuel : nat) (s : string) : option (list json * string) :=
  match fuel with
  | O => None
  | S fuel =>
      '(v, rest) ← parse_value fuel s;
      match skip_ws rest with
      | String "," rest' =>
          '(l, rest'') ← parse_elements fuel (skip_ws rest'); Some (v :: l, rest'')
      | String "]" rest' => Some ([v], rest')
      | _ => None
      end
  end
with parse_members (fuel : nat) (acc : list (string * json)) (s : string)
  : option (list (string * json) * string) :=
  match fuel with
  | O => None
  | S fuel =>
      '(k, rest) ← parse_string s;
      match skip_ws rest with
      | String ":" rest1 =>
          '(v, rest2) ← parse_value fuel (skip_ws rest1);
          let acc := define_property k v acc in
          match skip_ws rest2 with
          | String "," rest3 => parse_members fuel acc (skip_ws rest3)
          | String "}" rest3 => Some (acc, rest3)
          | _ => None
          end
      | _ => None
      end
  end.

Definition parse (text : string) : result json :=
  match parse_value (2 * String.length text + 2) (skip_ws text) with
  | Some (v, rest) =>
      match skip_ws rest with
      | EmptyString => Ok v
      | _ => Throw SyntaxError
      end
  | None => Throw SyntaxError
  end.

(** *** Number::toString and JSON.stringify *)

(** For a positive rational [num / den] below 1, the number of zeros
    that follow its decimal point, counted from [j]. *)
Fixpoint leading_zeros (fuel : nat) (num den : Z) (j : Z) : Z :=
  match fuel with
  | O => j
  | S fuel => if den <=? num * 10 then j else leading_zeros fuel (num * 10) den (j + 1)
  end.

(** The [n] with [10 ^ (n - 1) <= num / den < 10 ^ n]. *)
Definition magnitude (num den : Z) : Z :=
  if den <=? num then Z.of_nat (String.length (pretty (num / den)))
  else - leading_zeros 400 num den 0.

Fixpoint strip_zeros (fuel : nat) (c : Z) : Z :=
  match fuel with
  | O => c
  | S fuel => if (c mod 10 =? 0) && negb (c =? 0) then strip_zeros fuel (c / 10) else c
  end.

(** The shortest decimal that reads back as the positive Number
    [m * 2 ^ e], which is [num / den]: its digits as an integer without
    final zero, and [n] such that the decimal is that integer read
    after [0.] and multiplied by [10 ^ n].  Among the decimals of one
    length the nearest is taken, and the even one of two as near. *)
Fixpoint shortest (fuel : nat) (k : Z) (m : positive) (e : Z) (num den n : Z) : Z * Z :=
  let p := n - k in
  let lo := if 0 <=? p then num / (den * 10 ^ p) else (num * 10 ^ (- p)) / den in
  let hi := lo + 1 in
  let back c := bool_decide (decimal_to_number false c p = S754_finite false m e) in
  let side :=
    if 0 <=? p then 2 * num - (lo + hi) * 10 ^ p * den
    else 2 * num * 10 ^ (- p) - (lo + hi) * den in
  let lower_is_nearer := (side <? 0) || ((side =? 0) && Z.even lo) in
  let finish c := (strip_zeros 20 c, n + (Z.of_nat (String.length (pretty c)) - k)) in
  match fuel with
  | O => finish lo
  | S fuel =>
      match back lo, back hi with
      | true, true => finish (if lower_is_nearer then lo else hi)
      | true, false => finish lo
      | false, true => finish hi
      | false, false => shortest fuel (k + 1) m e num den n
      end
  end.

Fixpoint zeros (n : nat) : string :=
  match n with
  | O => EmptyString
  | S n => String "0" (zeros n)
  end.

Definition substring_from (i : nat) (s : string) : string :=
  String.substring i (String.length s - i) s.

(** Number::toString(x, 10) of a positive finite Number. *)
Definition positive_to_string (m : positive) (e : Z) : string :=
  let num := if 0 <=? e then Z.pos m * 2 ^ e else Z.pos m in
  let den := if 0 <=? e then 1 else 2 ^ (- e) in
  let '(c, n) := shortest 17 1 m e num den (magnitude num den) in
  let ds := pretty c in
  let k := Z.of_nat (String.length ds) in
  if (k <=? n) && (n <=? 21) then
    String.append ds (zeros (Z.to_nat (n - k)))
  else if (0 <? n) && (n <=? 21) then
    String.append (String.substring 0 (Z.to_nat n) ds)
      (String.append "." (substring_from (Z.to_nat n) ds))
  else if (-6 <? n) && (n <=? 0) then
    String.append "0." (String.append (zeros (Z.to_nat (- n))) ds)
  else
    let exponent :=
      String.append (if 0 <=? n - 1 then "e+" else "e-") (pretty (Z.abs (n - 1))) in
    if k =? 1 then String.append ds exponent
    else String.append (String.substring 0 1 ds)
           (String.append "." (String.append (substring_from 1 ds) exponent)).

(** A Number in [JSON.stringify]: what is not finite is [null]. *)
Definition stringify_number (x : number) : string :=
  match x with
  | S754_zero _ => "0"
  | S754_finite s m e =>
      String.append (if s then "-" else "") (positive_to_string m e)
  | S754_infinity _ | S754_nan => "null"
  end.

Definition hex_digit (n : Z) : ascii :=
  if n <? 10 then byte (48 + n) else byte (87 + n).

(** [\c] *)
Definition escaped (c : ascii) (tail : string) : string :=
  String "092" (String c tail).

(** [\uXXXX] *)
Definition escaped_unit (u : Z) (tail : string) : string :=
  escaped "u" (String (hex_digit (u / 4096)) (String (hex_digit (u / 256 mod 16))
    (String (hex_digit (u / 16 mod 16)) (String (hex_digit (u mod 16)) tail)))).

(** One character of a string in QuoteJSONString, before [tail]. *)
Definition quote_char (c : ascii) (tail : string) : string :=
  let n := Z.of_N (N_of_ascii c) in
  if n =? 34 then escaped "034" tail
  else if n =? 92 then escaped "092" tail
  else if n =? 8 then escaped "b" tail
  else if n =? 12 then escaped "f" tail
  else if n =? 10 then escaped "n" tail
  else if n =? 13 then escaped "r" tail
  else if n =? 9 then escaped "t" tail
  else if n <? 32 then escaped_unit n tail
  else String c tail.

(** The characters of QuoteJSONString between the quotes; the three
    bytes of an unpaired surrogate are written as its escape. *)
Fixpoint quote_chars (s : string) : string :=
  match s with
  | EmptyString => EmptyString
  | String c ((String c2 (String c3 rest')) as rest) =>
      let n2 := Z.of_N (N_of_ascii c2) in
      let n3 := Z.of_N (N_of_ascii c3) in
      if (Z.of_N (N_of_ascii c) =? 237) && (160 <=? n2)
      then escaped_unit (53248 + (n2 mod 64) * 64 + n3 mod 64) (quote_chars rest')
      else quote_char c (quote_chars rest)
  | String c rest => quote_char c (quote_chars rest)
  end.

Definition quote (s : string) : string :=
  String "034" (String.append (quote_chars s) (String "034" EmptyString)).

Definition join (l : list string) : string := String.concat "," l.

(** [JSON.stringify(v)], without indentation. *)
Fixpoint stringify (v : json) : string :=
  match v with
  | JNull => "null"
  | JBool true => "true"
  | JBool false => "false"
  | JNumber x => stringify_number x
  | JString s => quote s
  | JArray items =>
      String.append "[" (String.append (join (List.map stringify items)) "]")
  | JObject fields =>
      String.append "{"
        (String.append
           (join (List.map (fun f => String.append (quote (fst f))
                                       (String.append ":" (stringify (snd f)))) fields))
           "}")
  end.

(** The platform, with a prefix for the keys of the cache. *)
#[export] Instance platform : Platform :=
  {| JSON_parse := parse; JSON_stringify := stringify; STORAGE_PREFIX := "couchspinner" |}.

End Reference.

(** A text written with an apostrophe where it has a double quote. *)
Fixpoint dq (s : string) : string :=
  match s with
  | EmptyString => EmptyString
  | String c rest => String (if Ascii.eqb c "'" then "034"%char else c) (dq rest)
  end.

(** ** What the specification says, in its words *)

(** The visit records that [getNamesFromJson] walks under the key [c] of
    [json.couch_visits], in their natural order; none when the collection
    is absent or falsy, and [None] when it is something else than an
    array. *)
Definition visits_of (c : string) (doc : json) : option (list json) :=
  match Some doc ?. "couch_visits" ?. c with
  | None => Some []
  | Some (JArray items) => Some items
  | Some v => if truthy v then None else Some []
  end.

(** The records of a collection, each with its place. *)
Definition placed (c : string) (items : list json) : list (ref * json) :=
  imap (fun i visit => ({| collection := c; index := i |}, visit)) items.

(** The sequence of the specification: the host collection first, then
    the surfer collection. *)
Definition visit_sequence (hosts surfers : list json) : list (ref * json) :=
  placed "host_couch_visits" hosts ++ placed "surfer_couch_visits" surfers.

(** The personId of a record, as a key of the index. *)
Definition personId (r : ref) (visit : json) : key :=
  key_of r (person_of visit ?. "profile" ?. "id").

(** The identity that the code derives from a record. *)
Definition identity_of (visit : json) : Identity :=
  {| displayName := person_of visit ?. "profile" ?. "display_name";
     username := person_of visit ?. "username" |}.

(** The identity of a record as the specification words it: both names
    taken from the nested profile. *)
Definition identity_as_specified (visit : json) : Identity :=
  {| displayName := person_of visit ?. "profile" ?. "display_name";
     username := person_of visit ?. "profile" ?. "username" |}.

(** The lowercase form of a name. *)
Definition lower_ascii (c : ascii) : ascii :=
  let n := N_of_ascii c in
  if (N.leb 65 n && N.leb n 90)%bool then ascii_of_N (n + 32) else c.

Fixpoint lowercase (s : string) : string :=
  match s with
  | EmptyString => EmptyString
  | String c rest => String (lower_ascii c) (lowercase rest)
  end.

(** The selection of entries as the specification words it: by the
    lowercase form of the extension. *)
Definition is_json_entry_as_specified (zipEntry : ZipObject) : bool :=
  negb (dir zipEntry) && String.eqb (lowercase (pop (split "." (name zipEntry)))) "json".

Definition is_image_entry_as_specified (zipEntry : ZipObject) : bool :=
  negb (dir zipEntry) &&
  includes ["jpg"; "gif"; "png"] (lowercase (pop (split "." (name zipEntry)))).

(** An asset of the component: the object made for an image entry. *)
Definition asset (blobUrl id : string) : json :=
  JObject [("blobUrl", JString blobUrl); ("id", JString id)].

(** An empty world around a state of the component. *)
Definition world_of (a : AppState) (st : Storage) : World :=
  {| app := a; alerts := []; sentry := []; console := []; objectURLs := ∅;
     scrolls := 0; sessionStorage := st |}.

(** The state of the component before anything was dropped or cached. *)
Definition initial_state : AppState :=
  {| profile := EXAMPLE_PROFILE; profileImages := JArray []; names := [];
     fileDate := ""; isProcessing := false |}.

(** An empty session storage with room for [q] characters. *)
Definition empty_storage (q : nat) : Storage :=
  {| items := ∅; quota := q; disabled := false |}.

(** ** What the proofs and the examples are written with *)

(** One step of the walk, on a record with its place. *)
Definition collect_placed (names : Map) (rv : ref * json) : Map :=
  collectName (fst rv) (snd rv) names.

(** A profile with two host-side visits and one surfer-side visit; the
    person 7 is met on both sides. *)
Definition sample_profile_text : string :=
  dq "{'couch_visits':{'host_couch_visits':[{'surfer':{'username':'ann','profile':{'id':7,'display_name':'Ann'}}},{'surfer':{'username':'bob','profile':{'id':8,'display_name':'Bob'}}}],'surfer_couch_visits':[{'host':{'username':'ann_b','profile':{'id':7,'display_name':'Ann B.'}}}]}}".

Definition sample_profile : json :=
  Eval vm_compute in
    match Reference.parse sample_profile_text with
    | Ok doc => doc
    | Throw _ => JNull
    end.

Definition sample_hosts : list json :=
  Eval vm_compute in default [] (visits_of "host_couch_visits" sample_profile).

Definition sample_surfers : list json :=
  Eval vm_compute in default [] (visits_of "surfer_couch_visits" sample_profile).

(** The identity index of the sample: the numbers 7 and 8 as keys. *)
Definition sample_index : Map :=
  [(KNumber (S754_finite false 7881299347898368 (-50)),
    {| displayName := Some (JString "Ann B."); username := Some (JString "ann_b") |});
   (KNumber (S754_finite false 4503599627370496 (-49)),
    {| displayName := Some (JString "Bob"); username := Some (JString "bob") |})].

(** A record whose profile also carries a username. *)
Definition visit_with_profile_username : json :=
  JObject [("surfer",
            JObject [("profile",
                      JObject [("id", JString "p1");
                               ("username", JString "u");
                               ("display_name", JString "d")])])].

(** A record with both a surfer and a host. *)
Definition visit_with_both : json :=
  JObject [("surfer", JObject [("username", JString "sue");
                               ("profile", JObject [("id", JString "s1")])]);
           ("host", JObject [("username", JString "hal");
                             ("profile", JObject [("id", JString "h1")])])].

(** Whether a name holds a dot. *)
Fixpoint has_dot (s : string) : bool :=
  match s with
  | EmptyString => false
  | String c rest => Ascii.eqb c "." || has_dot rest
  end.

(** Entries with an uppercase extension. *)
Definition uppercase_entry : ZipObject :=
  {| name := "PROFILE.JSON"; dir := false; content := Ok "{}" |}.

Definition uppercase_image : ZipObject :=
  {| name := "photos/IMG_0001.JPG"; dir := false; content := Ok "JFIF" |}.

(** An archive with two documents, an image and a folder. *)
Definition sample_archive : JSZip :=
  [ {| name := "export/"; dir := true; content := Ok "" |};
    {| name := "export/123456.json"; dir := false;
       content := Ok sample_profile_text |};
    {| name := "export/photos/1.jpg"; dir := false; content := Ok "JFIF" |};
    {| name := "export/old.json"; dir := false; content := Ok "[]" |} ].

(** The world once the handler has set its flag and recorded the date of
    the file. *)
Definition started (file : File) (w : World) : World :=
  with_app (fun a =>
    {| profile := profile a; profileImages := profileImages a; names := names a;
       fileDate := default (fileDate a) (lastModifiedDate file);
       isProcessing := true |}) w.

(** The world once the handler has committed a document. *)
Definition committed (doc : json) (index : Map) (assets : json) (w : World) : World :=
  {| app := {| profile := doc; profileImages := assets; names := index;
               fileDate := fileDate (app w); isProcessing := false |};
     alerts := alerts w; sentry := sentry w; console := console w;
     objectURLs := objectURLs w; scrolls := S (scrolls w);
     sessionStorage := sessionStorage w |}.

(** The world once the handler has refused a file with a message. *)
Definition refused (msg : Alert) (w : World) : World :=
  {| app := {| profile := profile (app w); profileImages := profileImages (app w);
               names := names (app w); fileDate := fileDate (app w);
               isProcessing := false |};
     alerts := alerts w ++ [msg]; sentry := sentry w; console := console w;
     objectURLs := objectURLs w; scrolls := scrolls w;
     sessionStorage := sessionStorage w |}.

(** Two worlds that differ by their object URLs only. *)
Definition same_but_urls (w w' : World) : Prop :=
  app w' = app w ∧ alerts w' = alerts w ∧ sentry w' = sentry w ∧
  console w' = console w ∧ scrolls w' = scrolls w ∧
  sessionStorage w' = sessionStorage w.

(** An image entry and the asset made from it: the asset carries the name
    of the entry and a URL that resolves to its content in [w]. *)
Definition asset_of (w : World) (img : json) (e : ZipObject) : Prop :=
  ∃ url blob, img = asset url (name e) ∧ content e = Ok blob ∧
              objectURLs w !! url = Some blob.

Abbreviation reference := Reference.platform.

(** The world before the first drop, with room in the storage. *)
Definition fresh_world : World := world_of initial_state (empty_storage 4096).

(** A world that was restored with the assets of an earlier session and
    no document. *)
Definition world_with_assets : World :=
  world_of {| profile := EXAMPLE_PROFILE;
              profileImages := JArray [asset "blob:0" "export/photos/1.jpg"];
              names := []; fileDate := "Tue May 19 2020"; isProcessing := false |}
           (empty_storage 4096).

(** An archive of photos, without any document. *)
Definition photos_archive : JSZip :=
  [ {| name := "photos/"; dir := true; content := Ok "" |};
    {| name := "photos/1.jpg"; dir := false; content := Ok "JFIF" |} ].

Definition photos_file : File :=
  {| type := "application/zip";
     lastModifiedDate := Some "Thu May 21 2020";
     text := Ok "PK";
     archive := Ok photos_archive |}.

(** A file that is declared an archive and is none. *)
Definition corrupt_file : File :=
  {| type := "application/zip"; lastModifiedDate := None;
     text := Ok "not an archive"; archive := Throw DecodeError |}.

(** The export as a structured document. *)
Definition document_file : File :=
  {| type := "application/json"; lastModifiedDate := None;
     text := Ok sample_profile_text; archive := Throw DecodeError |}.

(** The export as an archive. *)
Definition export_file : File :=
  {| type := "application/zip"; lastModifiedDate := Some "Wed May 20 2020";
     text := Ok "PK";
     archive := Ok [ {| name := "export/"; dir := true; content := Ok "" |};
                     {| name := "export/123456.json"; dir := false;
                        content := Ok sample_profile_text |};
                     {| name := "export/photos/1.jpg"; dir := false; content := Ok "JFIF" |};
                     {| name := "export/photos/2.png"; dir := false; content := Ok "PNG" |} ] |}.

(** An archive whose document is the text [null]. *)
Definition null_entry : ZipObject :=
  {| name := "export/123456.json"; dir := false; content := Ok "null" |}.

Definition null_file : File :=
  {| type := "application/zip"; lastModifiedDate := None; text := Ok "PK";
     archive := Ok [null_entry] |}.

(** A storage in which the cached assets were overwritten by a text that
    is not JSON. *)
Definition damaged_storage : Storage :=
  {| items := <[cache_key (platform := reference) "profile" := sample_profile_text]>
                (<[cache_key (platform := reference) "profile_images" := "[object Object]"]> ∅);
     quota := 4096; disabled := false |}.

(** A world whose component shows the sample profile. *)
Definition world_with_profile : World :=
  world_of {| profile := sample_profile; profileImages := JArray [];
              names := sample_index; fileDate := "Wed May 20 2020";
              isProcessing := false |}
           (empty_storage 4096).

(** ** What the further properties are written with *)

(** What an extraction may change in the world: object URLs are added,
    at most one exception is sent to Sentry, and nothing else moves. *)
Definition extraction_step (w w' : World) : Prop :=
  app w' = app w ∧ alerts w' = alerts w ∧ console w' = console w ∧
  scrolls w' = scrolls w ∧ sessionStorage w' = sessionStorage w ∧
  objectURLs w ⊆ objectURLs w' ∧
  (sentry w' = sentry w ∨ ∃ e, sentry w' = (sentry w ++ [e])%list).

(** A visit collection that [getNamesFromJson] cannot walk: the value
    under the key [c] of [couch_visits] is truthy and is not an array. *)
Definition unwalkable (c : string) (doc : json) : Prop :=
  ∃ v, Some doc ?. "couch_visits" ?. c = Some v ∧ truthy v = true ∧
       ∀ items, v ≠ JArray items.

(** The world once the handler has caught an exception of the
    structured-document path. *)
Definition reported (e : exn) (w : World) : World :=
  {| app := {| profile := profile (app w); profileImages := profileImages (app w);
               names := names (app w); fileDate := fileDate (app w);
               isProcessing := false |};
     alerts := alerts w ++ [FunkyFile]; sentry := sentry w ++ [e];
     console := console w ++ [e]; objectURLs := objectURLs w;
     scrolls := scrolls w; sessionStorage := sessionStorage w |}.

(** The three keys of the cache. *)
Definition cache_fields : list string := ["file_date"; "profile_images"; "profile"].

(** A structured-document file whose text is cut short. *)
Definition truncated_file : File :=
  {| type := "application/json"; lastModifiedDate := Some "Fri May 22 2020";
     text := Ok "{"; archive := Throw DecodeError |}.

(** A picture dropped by mistake. *)
Definition picture_file : File :=
  {| type := "image/png"; lastModifiedDate := Some "Fri May 22 2020";
     text := Ok "PNG"; archive := Throw DecodeError |}.

(** An archive whose first document is not JSON and whose second one is. *)
Definition garbled_archive : JSZip :=
  [ {| name := "export/0.json"; dir := false; content := Ok "<html>" |};
    {| name := "export/123456.json"; dir := false; content := Ok sample_profile_text |};
    {| name := "export/photos/1.jpg"; dir := false; content := Ok "JFIF" |} ].

Definition garbled_file : File :=
  {| type := "application/zip"; lastModifiedDate := None; text := Ok "PK";
     archive := Ok garbled_archive |}.

(** The export with one photo that does not decompress. *)
Definition damaged_archive : JSZip :=
  [ {| name := "export/123456.json"; dir := false; content := Ok sample_profile_text |};
    {| name := "export/photos/1.jpg"; dir := false; content := Ok "JFIF" |};
    {| name := "export/photos/2.png"; dir := false; content := Throw DecodeError |} ].

Definition damaged_file : File :=
  {| type := "application/zip"; lastModifiedDate := None; text := Ok "PK";
     archive := Ok damaged_archive |}.

(** A structured-document file whose text is [null]. *)
Definition null_document_file : File :=
  {| type := "application/json"; lastModifiedDate := None;
     text := Ok "null"; archive := Throw DecodeError |}.

(** A world whose storage refuses every access. *)
Definition disabled_world : World :=
  world_of initial_state {| items := ∅; quota := 4096; disabled := true |}.

(** * Properties *)

Local Open Scope list_scope.

(** ** The Map *)

Lemma Map_get_set_eq (k : key) (v : Identity) (m : Map) :
  Map_get k (Map_set k v m) = Some v.
Proof.
  induction m as [|[k' v'] m IH]; simpl.
  - by rewrite decide_True.
  - destruct (decide (k' = k)) as [->|Hne]; simpl.
    + by rewrite decide_True.
    + by rewrite decide_False.
Qed.

Lemma Map_get_set_ne (k k' : key) (v : Identity) (m : Map) :
  k ≠ k' → Map_get k' (Map_set k v m) = Map_get k' m.
Proof.
  intros Hne. induction m as [|[k0 v0] m IH]; simpl.
  - by rewrite decide_False.
  - destruct (decide (k0 = k)) as [->|Hne0]; simpl.
    + by rewrite !decide_False.
    + destruct (decide (k0 = k')); [done | apply IH].
Qed.

(** ** The identity index *)

Lemma collectName_personId (r : ref) (visit : json) (names : Map) :
  collectName r visit names = Map_set (personId r visit) (identity_of visit) names.
Proof. reflexivity. Qed.

Lemma forEach_from_fold (i : nat) (c : string) (items : list json) (names : Map) :
  forEach_from i c items names =
  fold_left collect_placed
    (imap (fun j visit => ({| collection := c; index := i + j |}, visit)) items) names.
Proof.
  revert i names. induction items as [|visit items IH]; intros i names; simpl.
  - reflexivity.
  - rewrite IH. unfold collect_placed at 2. simpl. rewrite Nat.add_0_r.
    f_equal. apply imap_ext. intros j x _. simpl. do 2 f_equal. lia.
Qed.

Lemma collect_visits_fold (c : string) (doc : json) (items : list json) (names : Map) :
  visits_of c doc = Some items →
  collect_visits c doc names = Ok (fold_left collect_placed (placed c items) names).
Proof.
  unfold visits_of, collect_visits, forEach, placed.
  destruct (Some doc ?. "couch_visits" ?. c) as [v|]; [|by intros [= <-]].
  destruct v as [| b | x | s | l | fs]; simpl;
    try (by intros [= <-]);
    try (destruct b; by intros [= <-]);
    try (destruct (number_truthy x); by intros [= <-]);
    try (destruct (negb (String.eqb s "")); by intros [= <-]).
  intros [= <-]. by rewrite forEach_from_fold.
Qed.

(** The index is the walk of the two collections, host records first. *)
Lemma getNamesFromJson_fold (doc : json) (hosts surfers : list json) :
  visits_of "host_couch_visits" doc = Some hosts →
  visits_of "surfer_couch_visits" doc = Some surfers →
  getNamesFromJson doc = Ok (fold_left collect_placed (visit_sequence hosts surfers) []).
Proof.
  intros Hh Hs. unfold getNamesFromJson, visit_sequence.
  rewrite (collect_visits_fold _ _ _ _ Hh), (collect_visits_fold _ _ _ _ Hs).
  by rewrite fold_left_app.
Qed.

(** A record that no later record overwrites is the one found. *)
Lemma fold_last_wins (after : list (ref * json)) (r : ref) (visit : json) (names : Map) :
  (∀ r' visit', (r', visit') ∈ after → personId r' visit' ≠ personId r visit) →
  Map_get (personId r visit)
    (fold_left collect_placed after (collectName r visit names)) = Some (identity_of visit).
Proof.
  induction after as [|[r' visit'] after IH] using rev_ind; intros Hlater; simpl.
  - rewrite collectName_personId. apply Map_get_set_eq.
  - rewrite fold_left_app. simpl. unfold collect_placed at 1. simpl.
    rewrite collectName_personId, Map_get_set_ne.
    + apply IH. intros r0 v0 Hin. apply Hlater. set_solver.
    + apply Hlater. set_solver.
Qed.

(** C5.  [getNamesFromJson] walks the host-side visit records first and
    then the surfer-side ones, each collection in its natural order, and
    a later record replaces an earlier one of the same personId (the
    absent personId included): for a document whose two collections are
    arrays, or absent or falsy, the index is returned; at the personId
    of a record that no later record of the sequence shares, it holds
    the displayName and username of that record; so of two records of
    one personId, it holds those of the later one, unless a third one
    comes after.  PersonIds are compared as the Map compares its keys. *)
Theorem later_record_wins (doc : json) (hosts surfers : list json) :
  visits_of "host_couch_visits" doc = Some hosts →
  visits_of "surfer_couch_visits" doc = Some surfers →
  ∃ index : Map,
    getNamesFromJson doc = Ok index ∧
    (∀ before r visit after,
       visit_sequence hosts surfers = before ++ (r, visit) :: after →
       (∀ r' visit', (r', visit') ∈ after → personId r' visit' ≠ personId r visit) →
       Map_get (personId r visit) index = Some (identity_of visit)) ∧
    (∀ before r1 visit1 between r2 visit2 after,
       visit_sequence hosts surfers
       = before ++ (r1, visit1) :: between ++ (r2, visit2) :: after →
       personId r1 visit1 = personId r2 visit2 →
       (∀ r' visit', (r', visit') ∈ after → personId r' visit' ≠ personId r2 visit2) →
       Map_get (personId r1 visit1) index = Some (identity_of visit2)).
Proof.
  intros Hh Hs. eexists. split; [by apply getNamesFromJson_fold|].
  assert (Hlast : ∀ before r visit after,
    visit_sequence hosts surfers = before ++ (r, visit) :: after →
    (∀ r' visit', (r', visit') ∈ after → personId r' visit' ≠ personId r visit) →
    Map_get (personId r visit)
      (fold_left collect_placed (visit_sequence hosts surfers) [])
    = Some (identity_of visit)).
  { intros before r visit after -> Hlater.
    rewrite fold_left_app. simpl. unfold collect_placed at 2. simpl.
    by apply fold_last_wins. }
  split; [exact Hlast|].
  intros before r1 visit1 between r2 visit2 after Hseq Hsame Hlater.
  rewrite Hsame.
  apply (Hlast (before ++ (r1, visit1) :: between) r2 visit2 after); [|done].
  by rewrite Hseq, <- app_assoc.
Qed.

Lemma later_record_wins_witness :
  visits_of "host_couch_visits" sample_profile = Some sample_hosts ∧
  visits_of "surfer_couch_visits" sample_profile = Some sample_surfers ∧
  ∃ index : Map,
    getNamesFromJson sample_profile = Ok index ∧
    Map_get (KNumber (S754_finite false 7881299347898368 (-50))) index
    = Some {| displayName := Some (JString "Ann B."); username := Some (JString "ann_b") |}.
Proof.
  split; [reflexivity|]. split; [reflexivity|].
  destruct (later_record_wins sample_profile sample_hosts sample_surfers eq_refl eq_refl)
    as (index & Hindex & _ & Hlater).
  exists index. split; [exact Hindex|].
  apply (Hlater []
           {| collection := "host_couch_visits"; index := 0 |} (List.nth 0 sample_hosts JNull)
           [({| collection := "host_couch_visits"; index := 1 |}, List.nth 1 sample_hosts JNull)]
           {| collection := "surfer_couch_visits"; index := 0 |} (List.nth 0 sample_surfers JNull)
           []).
  - reflexivity.
  - reflexivity.
  - intros r' visit' Hin. by apply elem_of_nil in Hin.
Defined.

(** On the sample the surfer-side record of person 7, walked last, is the
    one kept. *)
Example sample_index_derived : getNamesFromJson sample_profile = Ok sample_index.
Proof. reflexivity. Qed.

Example sample_profile_parsed : Reference.parse sample_profile_text = Ok sample_profile.
Proof. vm_compute. reflexivity. Qed.

(** ** One visit record *)

Lemma person_of_cases (visit : json) :
  person_of visit =
  if to_boolean (Some visit ?. "surfer") then Some visit ?. "surfer"
  else if to_boolean (Some visit ?. "host") then Some visit ?. "host"
       else Some (JObject []).
Proof.
  unfold person_of, js_or.
  destruct (to_boolean (Some visit ?. "surfer")) eqn:Hs; rewrite ?Hs; reflexivity.
Qed.

(** C6, as stated, fails: this record keeps a username in its profile,
    which is what the specification would store; the code reads
    [username] on the person itself, where this record has none, and
    stores an absent username. *)
Lemma username_not_from_profile :
  let r := {| collection := "host_couch_visits"; index := 0 |} in
  identity_as_specified visit_with_profile_username
  = {| displayName := Some (JString "d"); username := Some (JString "u") |} ∧
  Map_get (personId r visit_with_profile_username)
    (collectName r visit_with_profile_username [])
  = Some {| displayName := Some (JString "d"); username := undefined |}.
Proof. split; reflexivity. Qed.

(** C6, amended.  For every visit record, whatever its shape, the person
    is the [surfer] property when it is truthy, else the [host] property
    when it is truthy, else an empty object; the record is filed under
    the [id] of the person's profile, with the [display_name] of that
    profile and the [username] of the person itself; the other keys of
    the index are untouched, and a record without any person is filed
    under the absent key with both names absent. *)
Theorem collectName_reads (r : ref) (visit : json) (names : Map) :
  let person := person_of visit in
  person = (if to_boolean (Some visit ?. "surfer") then Some visit ?. "surfer"
            else if to_boolean (Some visit ?. "host") then Some visit ?. "host"
                 else Some (JObject [])) ∧
  Map_get (key_of r (person ?. "profile" ?. "id")) (collectName r visit names)
  = Some {| displayName := person ?. "profile" ?. "display_name";
            username := person ?. "username" |} ∧
  (∀ k, k ≠ key_of r (person ?. "profile" ?. "id") →
        Map_get k (collectName r visit names) = Map_get k names) ∧
  (Some visit ?. "surfer" = undefined → Some visit ?. "host" = undefined →
   collectName r visit names
   = Map_set KUndefined {| displayName := undefined; username := undefined |} names).
Proof.
  cbv zeta. split; [apply person_of_cases|]. split; [apply Map_get_set_eq|].
  split.
  - intros k Hk. apply Map_get_set_ne. congruence.
  - intros Hs Hh. unfold collectName, person_of. rewrite Hs, Hh. reflexivity.
Qed.

Lemma collectName_reads_witness :
  let r := {| collection := "host_couch_visits"; index := 0 |} in
  let visit := JObject [("when", JString "2019")] in
  Map_get KNull (collectName r visit []) = Map_get KNull [] ∧
  collectName r visit []
  = Map_set KUndefined {| displayName := undefined; username := undefined |} [].
Proof.
  pose proof (collectName_reads {| collection := "host_couch_visits"; index := 0 |}
                (JObject [("when", JString "2019")]) []) as (_ & _ & Hother & Habsent).
  split.
  - apply Hother. simpl. discriminate.
  - apply Habsent; reflexivity.
Defined.

(** C10.  When the [surfer] property of a visit record is truthy the
    person is that property, and nothing else of the record is read:
    two records with the same truthy [surfer] are filed alike, whatever
    their [host].  The [host] property is the person only when [surfer]
    is absent or falsy. *)
Theorem surfer_before_host (r : ref) (visit : json) (names : Map) :
  (∀ s, Some visit ?. "surfer" = Some s → truthy s = true →
        person_of visit = Some s ∧
        collectName r visit names
        = Map_set (key_of r (Some s ?. "profile" ?. "id"))
            {| displayName := Some s ?. "profile" ?. "display_name";
               username := Some s ?. "username" |} names ∧
        ∀ visit', Some visit' ?. "surfer" = Some s →
                  collectName r visit' names = collectName r visit names) ∧
  (to_boolean (Some visit ?. "surfer") = false →
   person_of visit = Some visit ?. "host" ||| Some (JObject [])).
Proof.
  split.
  - intros s Hs Ht.
    assert (Hp : ∀ v, Some v ?. "surfer" = Some s → person_of v = Some s).
    { intros v Hv. unfold person_of, js_or. rewrite Hv.
      change (to_boolean (Some s)) with (truthy s). rewrite Ht.
      change (to_boolean (Some s)) with (truthy s). by rewrite Ht. }
    split; [by apply Hp|]. split.
    + unfold collectName. by rewrite (Hp visit Hs).
    + intros visit' Hs'. unfold collectName. by rewrite (Hp visit Hs), (Hp visit' Hs').
  - intros Hf. unfold person_of. unfold js_or at 2. by rewrite Hf.
Qed.

Lemma surfer_before_host_witness :
  let r := {| collection := "host_couch_visits"; index := 0 |} in
  person_of visit_with_both
  = Some (JObject [("username", JString "sue"); ("profile", JObject [("id", JString "s1")])]) ∧
  collectName r visit_with_both []
  = [(KString "s1", {| displayName := undefined; username := Some (JString "sue") |})].
Proof.
  pose proof (surfer_before_host {| collection := "host_couch_visits"; index := 0 |}
                visit_with_both []) as [Hsurfer _].
  destruct (Hsurfer (JObject [("username", JString "sue");
                              ("profile", JObject [("id", JString "s1")])])
              eq_refl eq_refl) as (Hp & Hc & _).
  split; [exact Hp | exact Hc].
Defined.

(** ** The selection of archive entries *)

Lemma split_not_nil (sep : ascii) (s : string) : split sep s ≠ [].
Proof.
  destruct s as [|c rest]; simpl; [done|].
  destruct (Ascii.eqb c sep); [done|]. by destruct (split sep rest).
Qed.

Lemma last_app_not_nil {A} (l l' : list A) (d : A) :
  l' ≠ [] → List.last (l ++ l') d = List.last l' d.
Proof.
  intros Hl'. induction l as [|x l IH]; [done|].
  simpl. destruct (l ++ l') eqn:E; [|done].
  apply app_eq_nil in E as [_ ->]. done.
Qed.

Lemma split_without_dot (s : string) : has_dot s = false → split "." s = [s].
Proof.
  induction s as [|c rest IH]; simpl; [done|].
  intros [Hc Hrest]%orb_false_iff. rewrite Hc, (IH Hrest). done.
Qed.

(** What precedes a dot only adds segments in front. *)
Lemma split_app_dot (stem t : string) :
  ∃ l, l ≠ [] ∧ split "." (String.append stem (String "." t)) = l ++ split "." t.
Proof.
  induction stem as [|c stem (l & Hl & IH)]; simpl.
  - by exists [EmptyString].
  - destruct (Ascii.eqb c ".").
    + exists (EmptyString :: l). by rewrite IH.
    + rewrite IH. destruct l as [|seg l]; [done|]. by exists (String c seg :: l).
Qed.

Lemma pop_split_app_dot (stem t : string) :
  pop (split "." (String.append stem (String "." t))) = pop (split "." t).
Proof.
  destruct (split_app_dot stem t) as (l & _ & ->).
  apply last_app_not_nil, split_not_nil.
Qed.

(** A name is its last segment, or ends with a dot and its last segment. *)
Lemma pop_split_decompose (s : string) :
  (has_dot s = false ∧ pop (split "." s) = s) ∨
  ∃ stem, s = String.append stem (String "." (pop (split "." s))).
Proof.
  induction s as [|c rest IH]; [by left|].
  destruct (Ascii.eqb c ".") eqn:Hc.
  - apply Ascii.eqb_eq in Hc as ->. right.
    change (String "." rest) with (String.append EmptyString (String "." rest)) at 2.
    rewrite pop_split_app_dot.
    destruct IH as [[_ ->]|[stem Hstem]]; [by exists EmptyString|].
    exists (String "." stem). exact (f_equal (String ".") Hstem).
  - destruct IH as [[Hnd Hp]|[stem Hstem]].
    + left. assert (Hs : has_dot (String c rest) = false) by (simpl; by rewrite Hc, Hnd).
      split; [done|]. by rewrite (split_without_dot _ Hs).
    + right. exists (String c stem).
      assert (Hgen : ∀ p, rest = String.append stem (String "." p) →
                pop (split "." (String c rest)) = pop (split "." rest)).
      { intros p ->. rewrite pop_split_app_dot.
        apply (pop_split_app_dot (String c stem)). }
      rewrite (Hgen _ Hstem). exact (f_equal (String c) Hstem).
Qed.

(** The names whose last segment is a given extension. *)
Lemma pop_split_extension (s ext : string) :
  has_dot ext = false →
  pop (split "." s) = ext ↔
  s = ext ∨ ∃ stem, s = String.append stem (String "." ext).
Proof.
  intros Hext. split.
  - intros <-. destruct (pop_split_decompose s) as [[_ Hs]|Hs]; [by left | by right].
  - intros [->|[stem ->]].
    + by rewrite (split_without_dot _ Hext).
    + rewrite pop_split_app_dot. by rewrite (split_without_dot _ Hext).
Qed.

Lemma includes_In (l : list string) (x : string) :
  includes l x = true ↔ In x l.
Proof.
  unfold includes. rewrite existsb_exists. split.
  - intros (y & Hy & ->%String.eqb_eq). done.
  - intros Hx. exists x. by rewrite String.eqb_refl.
Qed.

(** [zip.file(name)] finds an entry that [zip.filter] selected, since an
    archive holds one entry per name. *)
Lemma zip_file_of_entry (zip : JSZip) (e : ZipObject) :
  NoDup (List.map name zip) → In e zip → dir e = false →
  zip_file (name e) zip = Some e.
Proof.
  intros Hnd Hin Hdir. unfold zip_file.
  assert (Hfind : List.find (fun e' => String.eqb (name e') (name e)) zip = Some e).
  { induction zip as [|x zip IH]; [done|].
    simpl in *. apply NoDup_cons in Hnd as [Hx Hnd].
    destruct (String.eqb (name x) (name e)) eqn:Hname.
    - destruct Hin as [->|Hin]; [done|].
      apply String.eqb_eq in Hname. exfalso. apply Hx.
      rewrite Hname. apply list_elem_of_In, in_map, Hin.
    - destruct Hin as [->|Hin]; [by rewrite String.eqb_refl in Hname | by apply IH]. }
  by rewrite Hfind, Hdir.
Qed.

Section Selection.
Context {platform : Platform}.

(** C8, as stated, fails: the lowercase form of the extension of these
    entries is a recognized extension, and the code selects neither of
    them; an archive that holds only the first has no document. *)
Lemma selection_is_case_sensitive :
  is_json_entry_as_specified uppercase_entry = true ∧
  is_json_entry uppercase_entry = false ∧
  zip_filter is_json_entry [uppercase_entry] = [] ∧
  is_image_entry_as_specified uppercase_image = true ∧
  is_image_entry uppercase_image = false.
Proof. repeat split. Qed.

(** C8, amended.  An entry is selected iff it is not a directory and the
    last dot-separated segment of its name, compared as it is written,
    is a recognized extension: [json] for the document, one of [jpg],
    [gif], [png] for an image; that is, the name is the extension or ends
    with a dot and the extension.  When several entries are selected as
    documents, the first one in enumeration order alone is read: the
    outcome is that of an archive holding only it. *)
Theorem entries_selected_by_last_segment (zip : JSZip) (e : ZipObject) :
  (In e (zip_filter is_json_entry zip) ↔
   In e zip ∧ dir e = false ∧
   (name e = "json" ∨ ∃ stem, name e = String.append stem ".json")) ∧
  (In e (zip_filter is_image_entry zip) ↔
   In e zip ∧ dir e = false ∧
   ∃ ext, In ext ["jpg"; "gif"; "png"] ∧
          (name e = ext ∨ ∃ stem, name e = String.append stem (String "." ext))) ∧
  (∀ first others,
     NoDup (List.map name zip) →
     zip_filter is_json_entry zip = first :: others →
     ∀ w, getJsonFromZip zip w = getJsonFromZip [first] w).
Proof.
  split; [|split].
  - unfold zip_filter, is_json_entry. rewrite filter_In, andb_true_iff, negb_true_iff.
    rewrite String.eqb_eq, (pop_split_extension _ "json" eq_refl). tauto.
  - unfold zip_filter, is_image_entry. rewrite filter_In, andb_true_iff, negb_true_iff.
    rewrite includes_In. split.
    + intros (Hin & Hdir & Hext). split; [done|]. split; [done|].
      exists (pop (split "." (name e))). split; [done|].
      apply pop_split_extension; [|done].
      simpl in Hext. destruct Hext as [<-|[<-|[<-|[]]]]; reflexivity.
    + intros (Hin & Hdir & ext & Hext & Hname). split; [done|]. split; [done|].
      assert (Hnd : has_dot ext = false).
      { simpl in Hext. destruct Hext as [<-|[<-|[<-|[]]]]; reflexivity. }
      apply (pop_split_extension _ _ Hnd) in Hname. by rewrite Hname.
  - intros first others Hnd Hsel w.
    assert (Hin : In first (zip_filter is_json_entry zip)) by (rewrite Hsel; by left).
    apply filter_In in Hin as [Hin Hjson].
    assert (Hdir : dir first = false).
    { unfold is_json_entry in Hjson. apply andb_true_iff in Hjson as [Hd _].
      by apply negb_true_iff. }
    unfold getJsonFromZip. rewrite Hsel. unfold zip_filter. simpl. rewrite Hjson.
    unfold zip_file_async. rewrite (zip_file_of_entry zip first Hnd Hin Hdir).
    unfold zip_file. simpl. rewrite String.eqb_refl, Hdir. reflexivity.
Qed.

End Selection.

Lemma entries_selected_by_last_segment_witness :
  NoDup (List.map name sample_archive) ∧
  (∀ w, getJsonFromZip (platform := Reference.platform) sample_archive w
        = getJsonFromZip (platform := Reference.platform) [ {| name := "export/123456.json"; dir := false;
                              content := Ok sample_profile_text |} ] w).
Proof.
  assert (Hnd : NoDup (List.map name sample_archive)).
  { compute_done. }
  split; [exact Hnd|].
  destruct (entries_selected_by_last_segment (platform := Reference.platform) sample_archive
              {| name := "export/"; dir := true; content := Ok "" |}) as (_ & _ & Hfirst).
  apply (Hfirst _ [ {| name := "export/old.json"; dir := false; content := Ok "[]" |} ] Hnd).
  reflexivity.
Defined.

(** ** The drop handler *)

Section Handler.
Context {platform : Platform}.

(** Unfolds the operations of the monad and of the world. *)
Ltac run :=
  repeat first
    [ progress cbn -[fresh_string extractZip getJsonFromZip getImagesFromZip
                     getNamesFromJson] in *
    | progress unfold mbind, mret, ST_bind, ST_ret, try_catch, await, modify, with_app,
        setProfile, setProfileImages, setNames, setFileDate, setIsProcessing,
        alert, Sentry_captureException, console_error, scrollTop, readBlobFile in * ].

Lemma getJsonFromZip_none (zip : JSZip) (w : World) :
  zip_filter is_json_entry zip = [] →
  getJsonFromZip zip w = (Ok (JBool false), w).
Proof. intros Hsel. unfold getJsonFromZip. by rewrite Hsel. Qed.

Lemma getJsonFromZip_first (zip : JSZip) (e : ZipObject) (others : list ZipObject)
    (text : string) (doc : json) (w : World) :
  NoDup (List.map name zip) →
  zip_filter is_json_entry zip = e :: others →
  content e = Ok text →
  JSON_parse text = Ok doc →
  getJsonFromZip zip w = (Ok doc, w).
Proof.
  intros Hnd Hsel Htext Hdoc.
  assert (Hin : In e (zip_filter is_json_entry zip)) by (rewrite Hsel; by left).
  apply filter_In in Hin as [Hin [Hdir _]%andb_true_iff]. apply negb_true_iff in Hdir.
  unfold getJsonFromZip. rewrite Hsel. unfold zip_file_async.
  rewrite (zip_file_of_entry zip e Hnd Hin Hdir), Htext. run. by rewrite Hdoc.
Qed.

(** The assets of a list of entries that all decode. *)
Lemma image_tasks_ok (zip : JSZip) (files : list ZipObject) (w : World) :
  NoDup (List.map name zip) →
  Forall (fun e => In e zip ∧ dir e = false ∧ ∃ blob, content e = Ok blob) files →
  ∃ imgs w',
    Promise_all
      (List.map (fun file =>
         blob ← await (zip_file_async (name file) zip);
         blobUrl ← createObjectURL blob;
         mret (JObject [("blobUrl", JString blobUrl); ("id", JString (name file))]))
         files) w = (Ok imgs, w') ∧
    same_but_urls w w' ∧ objectURLs w ⊆ objectURLs w' ∧
    Forall2 (asset_of w') imgs files.
Proof.
  intros Hnd Hfiles. revert w.
  induction Hfiles as [|e files (Hin & Hdir & blob & Hblob) _ IH]; intros w.
  - exists [], w. repeat split; done.
  - set (url := fresh_string "blob:" (objectURLs w)).
    set (w1 := {| app := app w; alerts := alerts w; sentry := sentry w;
                  console := console w; objectURLs := <[url := blob]> (objectURLs w);
                  scrolls := scrolls w; sessionStorage := sessionStorage w |}).
    destruct (IH w1) as (imgs & w' & Hrun & Hsame & Hsub & Hassets).
    exists (asset url (name e) :: imgs), w'.
    assert (Hfresh : objectURLs w !! url = None) by apply fresh_string_fresh.
    split; [|split; [|split]].
    + simpl. unfold zip_file_async at 1. rewrite (zip_file_of_entry zip e Hnd Hin Hdir), Hblob.
      unfold mbind at 1, ST_bind at 1, await at 1.
      unfold mbind at 1, ST_bind at 1, createObjectURL at 1. fold url. fold w1.
      unfold mret at 1, ST_ret at 1.
      unfold mbind at 1, ST_bind at 1. rewrite Hrun. reflexivity.
    + destruct Hsame as (?&?&?&?&?&?). repeat split; simpl in *; congruence.
    + etrans; [|exact Hsub]. simpl. by apply insert_subseteq.
    + constructor; [|done]. exists url, blob. repeat split; [done|].
      eapply lookup_weaken; [|exact Hsub]. simpl. apply lookup_insert_eq.
Qed.

Lemma getImagesFromZip_ok (zip : JSZip) (w : World) :
  NoDup (List.map name zip) →
  Forall (fun e => ∃ blob, content e = Ok blob) (zip_filter is_image_entry zip) →
  ∃ imgs w',
    getImagesFromZip zip w = (Ok imgs, w') ∧
    same_but_urls w w' ∧ objectURLs w ⊆ objectURLs w' ∧
    Forall2 (asset_of w') imgs (zip_filter is_image_entry zip).
Proof.
  intros Hnd Hdec.
  destruct (image_tasks_ok zip (zip_filter is_image_entry zip) w Hnd)
    as (imgs & w' & Hrun & Hrest).
  { apply Forall_forall. intros e He.
    pose proof (proj1 (Forall_forall _ _) Hdec e He) as Hblob.
    apply list_elem_of_In, filter_In in He as [Hin [Hdir _]%andb_true_iff].
    by apply negb_true_iff in Hdir. }
  exists imgs, w'. split; [|exact Hrest].
  unfold getImagesFromZip. unfold mbind at 1, ST_bind at 1. by rewrite Hrun.
Qed.

Lemma extractZip_ok (file : File) (zip : JSZip) (w w1 w2 : World) (j : json)
    (imgs : list json) :
  archive file = Ok zip →
  getJsonFromZip zip w = (Ok j, w1) →
  getImagesFromZip zip w1 = (Ok imgs, w2) →
  extractZip file w = (Ok {| images := imgs; json_ := j |}, w2).
Proof.
  intros Harch Hjson Himgs. unfold extractZip. rewrite Harch.
  unfold mbind at 1, ST_bind at 1, await at 1.
  unfold mbind at 1, ST_bind at 1. rewrite Hjson.
  unfold mbind at 1, ST_bind at 1. rewrite Himgs. reflexivity.
Qed.

(** The handler on one archive, once [extractZip] has returned. *)
Lemma onDrop_zip (file : File) (w w1 : World) (ex : Extracted) :
  type file = "application/zip" →
  extractZip file (started file w) = (Ok ex, w1) →
  onDrop (Some [file]) w =
  if truthy (json_ ex) then
    match getNamesFromJson (json_ ex) with
    | Ok index => (Ok tt, committed (json_ ex) index (JArray (images ex)) w1)
    | Throw e => (Throw e, w1)
    end
  else (Ok tt, refused NoProfileInZip w1).
Proof.
  destruct file as [ty date txt arch]. simpl. intros -> Hex.
  unfold onDrop. run. unfold started in Hex.
  destruct date; run; rewrite Hex; run;
    (destruct (truthy (json_ ex)); run; [destruct (getNamesFromJson (json_ ex))|]);
    reflexivity.
Qed.

(** The handler on one structured-document file that can be read. *)
Lemma onDrop_json (file : File) (w : World) (t : string) :
  type file = "application/json" →
  text file = Ok t →
  onDrop (Some [file]) w =
  let w0 := started file w in
  match JSON_parse t with
  | Ok doc =>
      match getNamesFromJson doc with
      | Ok index => (Ok tt, committed doc index (profileImages (app w)) w0)
      | Throw e =>
          (Ok tt, refused FunkyFile
                    {| app := app w0; alerts := alerts w0; sentry := sentry w0 ++ [e];
                       console := console w0 ++ [e]; objectURLs := objectURLs w0;
                       scrolls := scrolls w0; sessionStorage := sessionStorage w0 |})
      end
  | Throw e =>
      (Ok tt, refused FunkyFile
                {| app := app w0; alerts := alerts w0; sentry := sentry w0 ++ [e];
                   console := console w0 ++ [e]; objectURLs := objectURLs w0;
                   scrolls := scrolls w0; sessionStorage := sessionStorage w0 |})
  end.
Proof.
  destruct file as [ty date txt arch]. simpl. intros -> ->.
  unfold onDrop. run.
  destruct date; run; (destruct (JSON_parse t) as [doc|e]; run;
    [destruct (getNamesFromJson doc)|]); reflexivity.
Qed.

(** C1, amended.  When an archive holds no entry selected as a document,
    and every image entry of it decodes, the handler shows the message
    of the missing profile and leaves the document, the assets and the
    identity index as they were, with the flag cleared; the fileDate is
    the date of the dropped file when the file carries one, and the
    previous fileDate otherwise. *)
Theorem archive_without_document (w : World) (file : File) (zip : JSZip) :
  type file = "application/zip" →
  archive file = Ok zip →
  NoDup (List.map name zip) →
  zip_filter is_json_entry zip = [] →
  Forall (fun e => ∃ blob, content e = Ok blob) (zip_filter is_image_entry zip) →
  ∃ w', onDrop (Some [file]) w = (Ok tt, w') ∧
        alerts w' = alerts w ++ [NoProfileInZip] ∧
        profile (app w') = profile (app w) ∧
        profileImages (app w') = profileImages (app w) ∧
        names (app w') = names (app w) ∧
        fileDate (app w') = default (fileDate (app w)) (lastModifiedDate file) ∧
        isProcessing (app w') = false.
Proof.
  intros Htype Harch Hnd Hnone Hdec.
  destruct (getImagesFromZip_ok zip (started file w) Hnd Hdec)
    as (imgs & w1 & Himgs & (Happ & Halerts & _) & _).
  pose proof (extractZip_ok file zip _ _ _ _ _ Harch
                (getJsonFromZip_none zip (started file w) Hnone) Himgs) as Hex.
  exists (refused NoProfileInZip w1). split.
  - by rewrite (onDrop_zip file w w1 _ Htype Hex).
  - simpl. rewrite Happ, Halerts. done.
Qed.

(** C3.  A structured-document file that parses is committed with the
    derived index, but the assets are not reset: the handler never calls
    [setProfileImages] on this path, so the assets of the previous state
    stay with the new document. *)
Theorem document_drop_keeps_assets (w : World) (file : File) (t : string)
    (doc : json) (index : Map) :
  type file = "application/json" →
  text file = Ok t →
  JSON_parse t = Ok doc →
  getNamesFromJson doc = Ok index →
  ∃ w', onDrop (Some [file]) w = (Ok tt, w') ∧
        profile (app w') = doc ∧
        names (app w') = index ∧
        profileImages (app w') = profileImages (app w) ∧
        isProcessing (app w') = false.
Proof.
  intros Htype Htext Hdoc Hindex.
  exists (committed doc index (profileImages (app w)) (started file w)).
  split; [|done].
  rewrite (onDrop_json file w t Htype Htext). simpl. by rewrite Hdoc, Hindex.
Qed.

(** C4, amended.  When an archive holds one entry selected as a document,
    this entry decodes to a text that parses to a truthy value whose
    visit collections can be walked, and every image entry decodes, the
    handler commits the parsed document with its index and one asset per
    image entry, in the order of the entries, each with the name of its
    entry and a URL that resolves to the content of that entry. *)
Theorem archive_with_document (w : World) (file : File) (zip : JSZip) (e : ZipObject)
    (t : string) (doc : json) (index : Map) :
  type file = "application/zip" →
  archive file = Ok zip →
  NoDup (List.map name zip) →
  zip_filter is_json_entry zip = [e] →
  content e = Ok t →
  JSON_parse t = Ok doc →
  truthy doc = true →
  getNamesFromJson doc = Ok index →
  Forall (fun e => ∃ blob, content e = Ok blob) (zip_filter is_image_entry zip) →
  ∃ w' assets,
    onDrop (Some [file]) w = (Ok tt, w') ∧
    profile (app w') = doc ∧
    names (app w') = index ∧
    profileImages (app w') = JArray assets ∧
    length assets = length (zip_filter is_image_entry zip) ∧
    Forall2 (asset_of w') assets (zip_filter is_image_entry zip) ∧
    isProcessing (app w') = false.
Proof.
  intros Htype Harch Hnd Hsel Ht Hdoc Htruthy Hindex Hdec.
  destruct (getImagesFromZip_ok zip (started file w) Hnd Hdec)
    as (imgs & w1 & Himgs & _ & _ & Hassets).
  pose proof (extractZip_ok file zip _ _ _ _ _ Harch
                (getJsonFromZip_first zip e [] t doc (started file w) Hnd Hsel Ht Hdoc)
                Himgs) as Hex.
  exists (committed doc index (JArray imgs) w1), imgs. split.
  - rewrite (onDrop_zip file w w1 _ Htype Hex). simpl. by rewrite Htruthy, Hindex.
  - repeat split; try done. by apply Forall2_length in Hassets.
Qed.

(** C2.  The flag is not cleared on every exit path: when the archive
    cannot be opened, [extractZip] throws, nothing catches it in [onDrop],
    and the handler ends with [isProcessing] still set. *)
Theorem corrupt_archive_leaves_processing (w : World) (file : File) (e : exn) :
  type file = "application/zip" →
  archive file = Throw e →
  ∃ w', onDrop (Some [file]) w = (Throw e, w') ∧ isProcessing (app w') = true.
Proof.
  destruct file as [ty date txt arch]. simpl. intros -> ->.
  destruct date; eexists; (split; [unfold onDrop, extractZip; run; reflexivity | reflexivity]).
Qed.

(** What C2 says of the paths on which the handler returns. *)
Lemma resolved_clears_processing (w w' : World) (files : option (list File)) :
  onDrop files w = (Ok tt, w') → isProcessing (app w') = false.
Proof.
  intros Hrun. unfold onDrop in Hrun. run.
  repeat (case_match; run; simplify_eq); try done.
Qed.

End Handler.

(** ** The session cache *)

Section CacheProperties.
Context {platform : Platform}.

Lemma append_inj (p a b : string) : String.append p a = String.append p b → a = b.
Proof.
  induction p as [|c p IH]; simpl; [done|]. intros [= Heq]. by apply IH.
Qed.

Lemma cache_key_inj (a b : string) : cache_key a = cache_key b → a = b.
Proof. unfold cache_key. intros Heq. by do 2 apply append_inj in Heq. Qed.

(** A write either lands in the storage or is reported and dropped. *)
Lemma setCacheValue_cases (k v : string) (w : World) :
  (∃ st, setItem (cache_key k) v (sessionStorage w) = Ok st ∧
         items st = <[cache_key k := v]> (items (sessionStorage w)) ∧
         disabled st = false ∧
         setCacheValue k v w =
         (Ok tt, {| app := app w; alerts := alerts w; sentry := sentry w;
                    console := console w; objectURLs := objectURLs w;
                    scrolls := scrolls w; sessionStorage := st |})) ∨
  (∃ e, setCacheValue k v w =
        (Ok tt, {| app := app w; alerts := alerts w; sentry := sentry w ++ [e];
                   console := console w ++ [e]; objectURLs := objectURLs w;
                   scrolls := scrolls w; sessionStorage := sessionStorage w |})).
Proof.
  unfold setCacheValue, try_catch, sessionStorage_setItem, setItem.
  destruct (disabled (sessionStorage w)) eqn:Hd; [right; by eexists|].
  destruct (Nat.leb _ _); [left | right; by eexists].
  eexists. repeat split; done.
Qed.

(** The three writes of the effect, when none of them is reported. *)
Lemma App_effect_stored (w w' : World) :
  App_effect true w = (Ok tt, w') →
  sentry w' = sentry w →
  app w' = app w ∧
  disabled (sessionStorage w') = false ∧
  items (sessionStorage w') !! cache_key "file_date" = Some (fileDate (app w)) ∧
  items (sessionStorage w') !! cache_key "profile"
  = Some (JSON_stringify (profile (app w))).
Proof.
  unfold App_effect. unfold mbind, ST_bind.
  destruct (setCacheValue_cases "file_date" (fileDate (app w)) w)
    as [(st1 & _ & Hi1 & Hd1 & ->)|(e1 & ->)];
  match goal with |- context [setCacheValue "profile_images" ?v ?w1] =>
    destruct (setCacheValue_cases "profile_images" v w1)
      as [(st2 & _ & Hi2 & Hd2 & ->)|(e2 & ->)]
  end;
  match goal with |- context [setCacheValue "profile" ?v ?w2] =>
    destruct (setCacheValue_cases "profile" v w2)
      as [(st3 & _ & Hi3 & Hd3 & ->)|(e3 & ->)]
  end;
  intros [= <-]; simpl in *; intros Hsentry;
  try (apply (f_equal length) in Hsentry; rewrite ?length_app in Hsentry;
       simpl in Hsentry; lia).
  split; [done|]. split; [done|].
  rewrite Hi3, Hi2, Hi1. split.
  - rewrite !lookup_insert_ne by (intros Heq%cache_key_inj; discriminate).
    apply lookup_insert_eq.
  - apply lookup_insert_eq.
Qed.

(** C9.  When the effect has stored the state without any write being
    reported, and the document survives [JSON.stringify] followed by
    [JSON.parse], [loadFromCache] returns that document and that
    fileDate.  When the storage throws on access, [loadFromCache] returns
    with its four fields [undefined]. *)
Theorem cache_round_trip :
  (∀ w w' : World,
     App_effect true w = (Ok tt, w') →
     sentry w' = sentry w →
     JSON_parse (JSON_stringify (profile (app w))) = Ok (profile (app w)) →
     ∃ c w'', loadFromCache w' = (Ok c, w'') ∧
              cachedProfile c = Some (profile (app w)) ∧
              cachedFileDate c = Some (JString (fileDate (app w)))) ∧
  (∀ w : World,
     disabled (sessionStorage w) = true →
     ∃ w', loadFromCache w = (Ok no_cache, w')).
Proof.
  split.
  - intros w w' Heffect Hsentry Hrep.
    destruct (App_effect_stored w w' Heffect Hsentry) as (_ & Hd & Hdate & Hprofile).
    unfold loadFromCache, loadFromCache_try, getItem. rewrite Hd, Hdate, Hprofile.
    unfold mbind, ST_bind, await, modify, mret, ST_ret. simpl. rewrite Hrep. simpl.
    destruct (JSON_parse (item_text _)) as [imgs|e]; simpl.
    + destruct (truthy (profile (app w))); simpl;
        [destruct (getNamesFromJson (profile (app w)))|]; simpl; by eexists _, _.
    + by eexists _, _.
  - intros w Hd. unfold loadFromCache, loadFromCache_try, getItem. rewrite Hd.
    by eexists.
Qed.

(** The index that [loadFromCache] returns is never read from the
    storage: it is derived from the document that the same call returns. *)
Lemma loaded_index_is_derived (w w' : World) (c : Cached) (index : Map) :
  loadFromCache w = (Ok c, w') →
  cachedNames c = Some index →
  ∃ doc, cachedProfile c = Some doc ∧ getNamesFromJson doc = Ok index.
Proof.
  unfold loadFromCache, loadFromCache_try.
  unfold mbind, ST_bind, await, modify, mret, ST_ret. simpl.
  repeat (case_match; simpl in *; simplify_eq); try done;
    intros; simplify_eq; simpl in *; simplify_eq; eauto.
Qed.

(** C7.  The invariant fails after a restoration: when the cached
    document parses to a truthy value and the cached assets do not parse,
    the exception interrupts [loadFromCache] after the document was
    assigned and before the index was derived; the component then shows
    the document with an empty index. *)
Theorem unreadable_assets_lose_index (w : World) (profileText imagesText : string)
    (doc : json) (e : exn) :
  disabled (sessionStorage w) = false →
  items (sessionStorage w) !! cache_key "profile" = Some profileText →
  JSON_parse profileText = Ok doc →
  truthy doc = true →
  items (sessionStorage w) !! cache_key "profile_images" = Some imagesText →
  JSON_parse imagesText = Throw e →
  ∃ w', App true w = (Ok tt, w') ∧ profile (app w') = doc ∧ names (app w') = [].
Proof.
  intros Hd Hp Hdoc Htruthy Hi Himgs.
  assert (Hload : ∃ w1, loadFromCache w =
    (Ok {| cachedFileDate := item_value (items (sessionStorage w) !! cache_key "file_date");
           cachedNames := None; cachedProfile := Some doc;
           cachedProfileImages := undefined |}, w1)).
  { unfold loadFromCache, loadFromCache_try, getItem. rewrite Hd, Hp, Hi.
    unfold mbind, ST_bind, await, modify, mret, ST_ret. simpl. rewrite Hdoc. simpl.
    rewrite Himgs. by eexists. }
  destruct Hload as [w1 Hload].
  unfold App. unfold mbind at 1, ST_bind at 1. rewrite Hload.
  eexists. split; [reflexivity|]. simpl.
  unfold js_or. simpl. by rewrite Htruthy.
Qed.

End CacheProperties.

(** ** The properties on concrete drops *)

(** C1, as stated, fails: the archive of photos holds no document; the
    handler shows the message of the missing profile and keeps the
    document, and the fileDate after the drop is the date of that
    archive, not the one of the document. *)
Lemma fileDate_changes_without_document :
  type photos_file = "application/zip" ∧
  archive photos_file = Ok photos_archive ∧
  zip_filter is_json_entry photos_archive = [] ∧
  fileDate (app world_with_profile) = "Wed May 20 2020" ∧
  ∃ w', onDrop (platform := reference) (Some [photos_file]) world_with_profile
        = (Ok tt, w') ∧
        alerts w' = [NoProfileInZip] ∧
        profile (app w') = sample_profile ∧
        fileDate (app w') = "Thu May 21 2020".
Proof.
  repeat split. eexists. split; [vm_compute; reflexivity|]. repeat split.
Qed.

Lemma archive_without_document_witness :
  ∃ w', onDrop (platform := reference) (Some [photos_file]) fresh_world = (Ok tt, w') ∧
        alerts w' = [NoProfileInZip] ∧
        profile (app w') = EXAMPLE_PROFILE ∧
        profileImages (app w') = JArray [] ∧
        names (app w') = [] ∧
        fileDate (app w') = "Thu May 21 2020" ∧
        isProcessing (app w') = false.
Proof.
  apply (archive_without_document (platform := reference) fresh_world photos_file
           photos_archive).
  - reflexivity.
  - reflexivity.
  - compute_done.
  - reflexivity.
  - repeat constructor. by eexists.
Defined.

Lemma corrupt_archive_leaves_processing_witness :
  ∃ w', onDrop (platform := reference) (Some [corrupt_file]) fresh_world
        = (Throw DecodeError, w') ∧
        isProcessing (app w') = true.
Proof.
  apply (corrupt_archive_leaves_processing (platform := reference)
           fresh_world corrupt_file DecodeError); reflexivity.
Defined.

(** The two other ways out of [onDrop] with the flag set: an image entry
    that does not decode, and a document whose visit collection is not
    an array. *)
Example undecodable_image_leaves_processing :
  let file := {| type := "application/zip"; lastModifiedDate := None; text := Ok "PK";
                 archive := Ok [ {| name := "1.jpg"; dir := false;
                                    content := Throw DecodeError |} ] |} in
  ∃ w', onDrop (platform := reference) (Some [file]) fresh_world = (Throw DecodeError, w') ∧
        isProcessing (app w') = true.
Proof. eexists. split; [vm_compute; reflexivity | reflexivity]. Qed.

Example unwalkable_document_leaves_processing :
  let file := {| type := "application/zip"; lastModifiedDate := None; text := Ok "PK";
                 archive := Ok [ {| name := "1.json"; dir := false;
                                    content := Ok (dq "{'couch_visits':{'host_couch_visits':5}}") |} ] |} in
  ∃ w', onDrop (platform := reference) (Some [file]) fresh_world = (Throw TypeError, w') ∧
        isProcessing (app w') = true.
Proof. eexists. split; [vm_compute; reflexivity | reflexivity]. Qed.

Lemma document_drop_keeps_assets_witness :
  ∃ w', onDrop (platform := reference) (Some [document_file]) world_with_assets
        = (Ok tt, w') ∧
        profile (app w') = sample_profile ∧
        names (app w') = sample_index ∧
        profileImages (app w') = JArray [asset "blob:0" "export/photos/1.jpg"] ∧
        isProcessing (app w') = false.
Proof.
  destruct (document_drop_keeps_assets (platform := reference)
              world_with_assets document_file sample_profile_text sample_profile
              sample_index
              eq_refl eq_refl eq_refl eq_refl)
    as (w' & Hrun & Hprofile & Hnames & Himages & Hflag).
  exists w'. repeat split; assumption.
Defined.

(** C4, as stated, fails: the only document entry of this archive is the
    well-formed text [null], which parses; the handler shows the message
    of the missing profile and commits nothing. *)
Lemma falsy_document_is_refused :
  type null_file = "application/zip" ∧
  archive null_file = Ok [null_entry] ∧
  zip_filter is_json_entry [null_entry] = [null_entry] ∧
  zip_filter is_image_entry [null_entry] = [] ∧
  content null_entry = Ok "null" ∧
  JSON_parse (Platform := reference) "null" = Ok JNull ∧
  ∃ w', onDrop (platform := reference) (Some [null_file]) fresh_world = (Ok tt, w') ∧
        alerts w' = [NoProfileInZip] ∧
        profile (app w') = EXAMPLE_PROFILE ∧
        scrolls w' = 0.
Proof.
  repeat split. eexists. split; [vm_compute; reflexivity|]. repeat split.
Qed.

Lemma archive_with_document_witness :
  ∃ w' assets,
    onDrop (platform := reference) (Some [export_file]) fresh_world = (Ok tt, w') ∧
    profile (app w') = sample_profile ∧
    names (app w') = sample_index ∧
    profileImages (app w') = JArray assets ∧
    length assets = 2 ∧
    Forall2 (asset_of w') assets
      [ {| name := "export/photos/1.jpg"; dir := false; content := Ok "JFIF" |};
        {| name := "export/photos/2.png"; dir := false; content := Ok "PNG" |} ] ∧
    isProcessing (app w') = false.
Proof.
  destruct (archive_with_document (platform := reference) fresh_world export_file
              [ {| name := "export/"; dir := true; content := Ok "" |};
                {| name := "export/123456.json"; dir := false;
                   content := Ok sample_profile_text |};
                {| name := "export/photos/1.jpg"; dir := false; content := Ok "JFIF" |};
                {| name := "export/photos/2.png"; dir := false; content := Ok "PNG" |} ]
              {| name := "export/123456.json"; dir := false;
                 content := Ok sample_profile_text |}
              sample_profile_text sample_profile
              sample_index
              eq_refl eq_refl ltac:(compute_done) eq_refl eq_refl eq_refl eq_refl eq_refl
              ltac:(repeat constructor; by eexists))
    as (w' & assets & Hrun & Hprofile & Hnames & Himages & Hlen & Hassets & Hflag).
  exists w', assets. repeat split; assumption.
Defined.

Lemma unreadable_assets_lose_index_witness :
  ∃ w', App (platform := reference) true (world_of initial_state damaged_storage)
        = (Ok tt, w') ∧
        profile (app w') = sample_profile ∧ names (app w') = [].
Proof.
  apply (unreadable_assets_lose_index (platform := reference)
           (world_of initial_state damaged_storage)
           sample_profile_text "[object Object]" sample_profile SyntaxError);
    reflexivity.
Defined.

Lemma cache_round_trip_witness :
  let w := world_with_profile in
  let w' := snd (App_effect (platform := reference) true w) in
  App_effect (platform := reference) true w = (Ok tt, w') ∧
  sentry w' = sentry w ∧
  ∃ c w'', loadFromCache (platform := reference) w' = (Ok c, w'') ∧
           cachedProfile c = Some sample_profile ∧
           cachedFileDate c = Some (JString "Wed May 20 2020").
Proof.
  assert (Heffect : App_effect (platform := reference) true world_with_profile
                    = (Ok tt, snd (App_effect (platform := reference) true world_with_profile)))
    by (vm_compute; reflexivity).
  assert (Hsentry : sentry (snd (App_effect (platform := reference) true world_with_profile))
                    = sentry world_with_profile)
    by (vm_compute; reflexivity).
  split; [exact Heffect|]. split; [exact Hsentry|].
  apply (proj1 (cache_round_trip (platform := reference)) world_with_profile _ Heffect Hsentry).
  vm_compute. reflexivity.
Defined.

(** * Further properties of the code *)

(** ** The drop handler, path by path *)

Section HandlerPaths.
Context {platform : Platform}.

Ltac step :=
  repeat first
    [ progress cbn -[fresh_string extractZip getJsonFromZip getImagesFromZip
                     getNamesFromJson] in *
    | progress unfold mbind, mret, ST_bind, ST_ret, try_catch, await, modify, with_app,
        setProfile, setProfileImages, setNames, setFileDate, setIsProcessing,
        alert, Sentry_captureException, console_error, scrollTop, readBlobFile in * ].

(** What the handler does, for every input, in terms of what
    [extractZip], [JSON.parse] and [getNamesFromJson] give. *)
Lemma onDrop_cases (files : option (list File)) (w : World) :
  onDrop files w =
  match files with
  | None | Some [] => (Ok tt, refused NoFiles w)
  | Some (_ :: _ :: _) => (Ok tt, refused JustOneFile w)
  | Some [file] =>
      if String.eqb (type file) "application/zip" then
        match extractZip file (started file w) with
        | (Ok ex, w1) =>
            if truthy (json_ ex) then
              match getNamesFromJson (json_ ex) with
              | Ok index => (Ok tt, committed (json_ ex) index (JArray (images ex)) w1)
              | Throw e => (Throw e, w1)
              end
            else (Ok tt, refused NoProfileInZip w1)
        | (Throw e, w1) => (Throw e, w1)
        end
      else if String.eqb (type file) "application/json" then
        match text file with
        | Ok t =>
            match JSON_parse t with
            | Ok doc =>
                match getNamesFromJson doc with
                | Ok index =>
                    (Ok tt, committed doc index (profileImages (app w)) (started file w))
                | Throw e => (Ok tt, reported e (started file w))
                end
            | Throw e => (Ok tt, reported e (started file w))
            end
        | Throw e => (Throw e, started file w)
        end
      else (Ok tt, refused UnsupportedType w)
  end.
Proof.
  destruct files as [[|file [|file2 others]]|]; try reflexivity.
  destruct file as [ty date txt arch]. unfold onDrop, started. step.
  destruct (String.eqb ty "application/zip") eqn:Hzip; step.
  - destruct date; step;
      (match goal with |- context [extractZip ?f ?w0] =>
         destruct (extractZip f w0) as [[ex|e] w1] end; step; [|reflexivity]);
      (destruct (truthy (json_ ex)); step; [|reflexivity]);
      destruct (getNamesFromJson (json_ ex)); reflexivity.
  - destruct (String.eqb ty "application/json") eqn:Hjson; step; [|reflexivity].
    destruct date; step; (destruct txt as [t|e]; step; [|reflexivity]);
      (destruct (JSON_parse t) as [doc|e]; step; [|reflexivity]);
      destruct (getNamesFromJson doc); reflexivity.
Qed.

(** X1.  Anything but one file is refused before any file is looked at:
    without files the handler asks for some, with several it asks for
    one; the document, the assets, the index and the fileDate stay as
    they were, the flag is cleared, and nothing is reported, created or
    stored. *)
Theorem wrong_count_is_refused (files : option (list File)) (w : World) :
  (∀ file, files ≠ Some [file]) →
  onDrop files w =
  (Ok tt, refused (match files with
                   | Some (_ :: _) => JustOneFile
                   | _ => NoFiles
                   end) w).
Proof.
  intros Hcount. rewrite onDrop_cases.
  destruct files as [[|file [|file2 others]]|]; try reflexivity.
  by destruct (Hcount file).
Qed.

(** X2.  A single file whose declared type is neither the archive type
    nor the structured-document type is refused with the message of the
    supported types; its content is never read and its date is not
    recorded: the fileDate of the state stays as it was. *)
Theorem unsupported_type_is_refused (file : File) (w : World) :
  type file ≠ "application/zip" →
  type file ≠ "application/json" →
  onDrop (Some [file]) w = (Ok tt, refused UnsupportedType w).
Proof.
  intros Hzip%String.eqb_neq Hjson%String.eqb_neq.
  rewrite onDrop_cases. by rewrite Hzip, Hjson.
Qed.

(** X3.  On the structured-document path every exception of the parse or
    of the derivation of the index is caught: the handler returns, shows
    the message of the unreadable file, sends the exception once to
    Sentry and once to the console, clears the flag, and leaves the
    document, the assets and the index as they were; only the date of
    the file has been recorded. *)
Theorem unreadable_document_is_reported (file : File) (w : World) (t : string) (e : exn) :
  type file = "application/json" →
  text file = Ok t →
  JSON_parse t = Throw e ∨
  (∃ doc, JSON_parse t = Ok doc ∧ getNamesFromJson doc = Throw e) →
  ∃ w', onDrop (Some [file]) w = (Ok tt, w') ∧
        alerts w' = alerts w ++ [FunkyFile] ∧
        sentry w' = sentry w ++ [e] ∧
        console w' = console w ++ [e] ∧
        profile (app w') = profile (app w) ∧
        profileImages (app w') = profileImages (app w) ∧
        names (app w') = names (app w) ∧
        fileDate (app w') = default (fileDate (app w)) (lastModifiedDate file) ∧
        isProcessing (app w') = false ∧
        scrolls w' = scrolls w.
Proof.
  intros Htype Htext Hfail. exists (reported e (started file w)).
  split; [|done].
  rewrite onDrop_cases, Htype, Htext. simpl.
  destruct Hfail as [->|(doc & -> & ->)]; reflexivity.
Qed.

(** *** What an extraction can change *)

Lemma extraction_step_refl (w : World) : extraction_step w w.
Proof. repeat split; try done. by left. Qed.

Lemma getJsonFromZip_step (zip : JSZip) (w : World) :
  extraction_step w (snd (getJsonFromZip zip w)).
Proof.
  unfold getJsonFromZip. destruct (zip_filter is_json_entry zip) as [|file0 others].
  - apply extraction_step_refl.
  - step. destruct (zip_file_async (name file0) zip) as [jsonString|e]; step;
      [|apply extraction_step_refl].
    destruct (JSON_parse jsonString) as [doc|e]; step; [apply extraction_step_refl|].
    repeat split; try done. right. by exists e.
Qed.

Lemma bind_ret_snd {S A B} (m : ST S A) (f : A → B) (s : S) :
  snd ((x ← m; mret (f x)) s) = snd (m s).
Proof. unfold mbind, ST_bind, mret, ST_ret. by destruct (m s) as [[a|e] s']. Qed.

Lemma image_tasks_step (zip : JSZip) (files : list ZipObject) (w : World) :
  let w' := snd (Promise_all
      (List.map (fun file =>
         blob ← await (zip_file_async (name file) zip);
         blobUrl ← createObjectURL blob;
         mret (JObject [("blobUrl", JString blobUrl); ("id", JString (name file))]))
         files) w) in
  same_but_urls w w' ∧ objectURLs w ⊆ objectURLs w'.
Proof.
  revert w. induction files as [|file files IH]; intros w; [done|].
  cbv zeta in *. simpl.
  unfold mbind, ST_bind, await, createObjectURL, mret, ST_ret in *.
  destruct (zip_file_async (name file) zip) as [blob|e]; simpl.
  - assert (Hfresh : objectURLs w !! fresh_string "blob:" (objectURLs w) = None)
      by apply fresh_string_fresh.
    match goal with |- context [Promise_all ?tasks ?w1] =>
      destruct (IH w1) as [(Ha & Hal & Hse & Hc & Hsc & Hst) Hsub];
      destruct (Promise_all tasks w1) as [[l|e] w2]
    end; simpl in *;
      (split; [by repeat split|]);
      (etrans; [|exact Hsub]; by apply insert_subseteq).
  - exact (IH w).
Qed.

Lemma getImagesFromZip_step (zip : JSZip) (w : World) :
  same_but_urls w (snd (getImagesFromZip zip w)) ∧
  objectURLs w ⊆ objectURLs (snd (getImagesFromZip zip w)).
Proof.
  pose proof (image_tasks_step zip (zip_filter is_image_entry zip) w) as Hstep.
  cbv zeta in Hstep. unfold getImagesFromZip. by rewrite bind_ret_snd.
Qed.

Lemma extractZip_step (file : File) (w : World) :
  extraction_step w (snd (extractZip file w)).
Proof.
  unfold extractZip. unfold mbind at 1, ST_bind at 1, await at 1.
  destruct (archive file) as [zip|e]; [|apply extraction_step_refl].
  unfold mbind at 1, ST_bind at 1.
  pose proof (getJsonFromZip_step zip w) as (Ha & Hal & Hc & Hsc & Hst & Hu & Hse).
  destruct (getJsonFromZip zip w) as [[j|e] w1]; simpl in *; [|by repeat split].
  unfold mbind at 1, ST_bind at 1.
  pose proof (getImagesFromZip_step zip w1) as [(Ha2 & Hal2 & Hse2 & Hc2 & Hsc2 & Hst2) Hu2].
  destruct (getImagesFromZip zip w1) as [[imgs|e] w2]; simpl in *;
    (repeat split; [congruence..| by etrans | rewrite Hse2; exact Hse]).
Qed.

Lemma getJsonFromZip_malformed (zip : JSZip) (e : ZipObject) (others : list ZipObject)
    (t : string) (err : exn) (w : World) :
  NoDup (List.map name zip) →
  zip_filter is_json_entry zip = e :: others →
  content e = Ok t →
  JSON_parse t = Throw err →
  getJsonFromZip zip w =
  (Ok (JBool false),
   {| app := app w; alerts := alerts w; sentry := sentry w ++ [err];
      console := console w; objectURLs := objectURLs w; scrolls := scrolls w;
      sessionStorage := sessionStorage w |}).
Proof.
  intros Hnd Hsel Htext Hdoc.
  assert (Hin : In e (zip_filter is_json_entry zip)) by (rewrite Hsel; by left).
  apply filter_In in Hin as [Hin [Hdir _]%andb_true_iff]. apply negb_true_iff in Hdir.
  unfold getJsonFromZip. rewrite Hsel. unfold zip_file_async.
  rewrite (zip_file_of_entry zip e Hnd Hin Hdir), Htext. step. by rewrite Hdoc.
Qed.

(** The batch of images fails as soon as one entry does not decode. *)
Lemma image_tasks_fail (zip : JSZip) (files : list ZipObject) (img : ZipObject)
    (e : exn) (w : World) :
  In img files →
  zip_file_async (name img) zip = Throw e →
  ∃ e', fst (Promise_all
      (List.map (fun file =>
         blob ← await (zip_file_async (name file) zip);
         blobUrl ← createObjectURL blob;
         mret (JObject [("blobUrl", JString blobUrl); ("id", JString (name file))]))
         files) w) = Throw e'.
Proof.
  intros Hin Himg. revert w.
  induction files as [|file files IH]; intros w; [done|].
  simpl. unfold mbind at 1, ST_bind at 1, await at 1.
  destruct (zip_file_async (name file) zip) as [blob|e0] eqn:Hfile; [|by eexists].
  destruct Hin as [->|Hin]; [congruence|].
  unfold mbind at 1, ST_bind at 1, createObjectURL at 1.
  unfold mret at 1, ST_ret at 1. unfold mbind at 1, ST_bind at 1.
  match goal with |- context [Promise_all ?tasks ?w1] =>
    destruct (IH Hin w1) as [e' He']; destruct (Promise_all tasks w1) as [[l|e1] w2]
  end; simpl in *; [done | by eexists].
Qed.

(** X4.  When the first entry selected as a document decodes to a text
    that is not JSON, the archive is treated as one without a profile,
    whatever the entries that follow: the exception of the parse is sent
    to Sentry (not to the console), the handler shows the message of the
    missing profile, not the one of the unreadable file, and the
    document, the assets and the index stay as they were. *)
Theorem malformed_entry_is_a_missing_profile (w : World) (file : File) (zip : JSZip)
    (e : ZipObject) (others : list ZipObject) (t : string) (err : exn) :
  type file = "application/zip" →
  archive file = Ok zip →
  NoDup (List.map name zip) →
  zip_filter is_json_entry zip = e :: others →
  content e = Ok t →
  JSON_parse t = Throw err →
  Forall (fun e => ∃ blob, content e = Ok blob) (zip_filter is_image_entry zip) →
  ∃ w', onDrop (Some [file]) w = (Ok tt, w') ∧
        alerts w' = alerts w ++ [NoProfileInZip] ∧
        sentry w' = sentry w ++ [err] ∧
        console w' = console w ∧
        profile (app w') = profile (app w) ∧
        profileImages (app w') = profileImages (app w) ∧
        names (app w') = names (app w) ∧
        isProcessing (app w') = false.
Proof.
  intros Htype Harch Hnd Hsel Ht Hparse Hdec.
  pose proof (getJsonFromZip_malformed zip e others t err (started file w)
                Hnd Hsel Ht Hparse) as Hjson.
  match type of Hjson with _ = (_, ?w0) =>
    destruct (getImagesFromZip_ok zip w0 Hnd Hdec)
      as (imgs & w1 & Himgs & (Happ & Halerts & Hsentry & Hconsole & _) & _)
  end.
  pose proof (extractZip_ok file zip _ _ _ _ _ Harch Hjson Himgs) as Hex.
  exists (refused NoProfileInZip w1). split.
  - by rewrite (onDrop_zip file w w1 _ Htype Hex).
  - simpl. rewrite Happ, Halerts, Hsentry, Hconsole. done.
Qed.

(** X5.  One image entry that does not decode fails the whole
    extraction: no partial list of assets is returned, and the handler
    ends with an exception, without any message, with the flag still
    set, and without committing the document of the archive, however
    well-formed it is. *)
Theorem one_bad_image_fails_the_drop (w : World) (file : File) (zip : JSZip)
    (img : ZipObject) (e : exn) :
  type file = "application/zip" →
  archive file = Ok zip →
  NoDup (List.map name zip) →
  In img (zip_filter is_image_entry zip) →
  content img = Throw e →
  (∀ w0, ∃ e', fst (getImagesFromZip zip w0) = Throw e') ∧
  ∃ e' w', onDrop (Some [file]) w = (Throw e', w') ∧
           alerts w' = alerts w ∧
           profile (app w') = profile (app w) ∧
           profileImages (app w') = profileImages (app w) ∧
           names (app w') = names (app w) ∧
           isProcessing (app w') = true.
Proof.
  intros Htype Harch Hnd Himg Hcontent.
  assert (Hasync : zip_file_async (name img) zip = Throw e).
  { pose proof Himg as Himg'.
    apply filter_In in Himg' as [Hin [Hdir _]%andb_true_iff]. apply negb_true_iff in Hdir.
    unfold zip_file_async. by rewrite (zip_file_of_entry zip img Hnd Hin Hdir). }
  assert (Hfail : ∀ w0, ∃ e', fst (getImagesFromZip zip w0) = Throw e').
  { intros w0.
    destruct (image_tasks_fail zip _ img e w0 Himg Hasync) as [e' He'].
    exists e'. unfold getImagesFromZip. unfold mbind at 1, ST_bind at 1.
    destruct (Promise_all _ w0) as [[l|e1] w1]; simpl in *; congruence. }
  split; [exact Hfail|].
  assert (Hex : ∃ e', fst (extractZip file (started file w)) = Throw e').
  { unfold extractZip. rewrite Harch. unfold mbind at 1, ST_bind at 1, await at 1.
    unfold mbind at 1, ST_bind at 1.
    destruct (getJsonFromZip zip (started file w)) as [[j|e0] w1]; [|by eexists].
    unfold mbind at 1, ST_bind at 1.
    destruct (Hfail w1) as [e' He'].
    destruct (getImagesFromZip zip w1) as [[imgs|e1] w2]; simpl in *; [done | by eexists]. }
  destruct Hex as [e' He'].
  pose proof (extractZip_step file (started file w)) as (Happ & Halerts & _).
  rewrite onDrop_cases, Htype. simpl.
  destruct (extractZip file (started file w)) as [[ex|e1] w1]; simpl in *; [done|].
  exists e1, w1. rewrite Happ, Halerts. done.
Qed.

(** X6.  When the handler ends with an exception it has shown no
    message, has not scrolled, has left the flag set, and has committed
    nothing: the document, the assets and the index are those of
    before. *)
Theorem thrown_drop_commits_nothing (files : option (list File)) (w w' : World) (e : exn) :
  onDrop files w = (Throw e, w') →
  isProcessing (app w') = true ∧
  alerts w' = alerts w ∧
  scrolls w' = scrolls w ∧
  profile (app w') = profile (app w) ∧
  profileImages (app w') = profileImages (app w) ∧
  names (app w') = names (app w).
Proof.
  rewrite onDrop_cases. intros Hrun.
  destruct files as [[|file [|file2 others]]|]; try discriminate Hrun.
  destruct (String.eqb (type file) "application/zip").
  - pose proof (extractZip_step file (started file w)) as (Happ & Halerts & _ & Hsc & _).
    destruct (extractZip file (started file w)) as [[ex|e1] w1]; simpl in *.
    + destruct (truthy (json_ ex)); [|discriminate Hrun].
      destruct (getNamesFromJson (json_ ex)); [discriminate Hrun|].
      injection Hrun as _ <-. rewrite Happ, Halerts, Hsc. done.
    + injection Hrun as _ <-. rewrite Happ, Halerts, Hsc. done.
  - destruct (String.eqb (type file) "application/json"); [|discriminate Hrun].
    destruct (text file) as [t|e1].
    + destruct (JSON_parse t) as [doc|e1];
        [destruct (getNamesFromJson doc)|]; discriminate Hrun.
    + injection Hrun as _ <-. done.
Qed.

(** X7.  Whatever is dropped and however the handler ends, it never
    writes the session storage, never revokes or redirects an object
    URL that resolved before, shows at most one message, and sends at
    most one exception to Sentry. *)
Theorem onDrop_frame (files : option (list File)) (w : World) :
  let w' := snd (onDrop files w) in
  sessionStorage w' = sessionStorage w ∧
  objectURLs w ⊆ objectURLs w' ∧
  (alerts w' = alerts w ∨ ∃ msg, alerts w' = alerts w ++ [msg]) ∧
  (sentry w' = sentry w ∨ ∃ e, sentry w' = sentry w ++ [e]).
Proof.
  cbv zeta. rewrite onDrop_cases.
  destruct files as [[|file [|file2 others]]|]; simpl;
    try (repeat split; [done | by right; eexists | by left]).
  destruct (String.eqb (type file) "application/zip").
  - pose proof (extractZip_step file (started file w))
      as (_ & Halerts & _ & _ & Hst & Hurls & Hsentry).
    destruct (extractZip file (started file w)) as [[ex|e1] w1]; simpl in *.
    + destruct (truthy (json_ ex)); [destruct (getNamesFromJson (json_ ex))|]; simpl;
        (repeat split; [done | done | | done]); rewrite Halerts;
        [by left | by left | by right; eexists].
    + repeat split; [done | done | by left | done].
  - destruct (String.eqb (type file) "application/json").
    + destruct (text file) as [t|e1]; simpl.
      * destruct (JSON_parse t) as [doc|e1];
          [destruct (getNamesFromJson doc)|]; simpl;
          (repeat split; [done | ..]);
          first [ by left | by right; eexists ].
      * repeat split; [done | by left | by left].
    + simpl. repeat split; [done | by right; eexists | by left].
Qed.

(** X8.  The pairing of the document with its index is kept by the
    handler: when the index of the state is the one derived from its
    document before a drop, it still is after the drop, whatever was
    dropped and however the handler ended. *)
Theorem index_stays_paired (files : option (list File)) (w : World) :
  getNamesFromJson (profile (app w)) = Ok (names (app w)) →
  let w' := snd (onDrop files w) in
  getNamesFromJson (profile (app w')) = Ok (names (app w')).
Proof.
  intros Hpaired. cbv zeta. rewrite onDrop_cases.
  destruct files as [[|file [|file2 others]]|]; simpl; try exact Hpaired.
  destruct (String.eqb (type file) "application/zip").
  - pose proof (extractZip_step file (started file w)) as (Happ & _).
    destruct (extractZip file (started file w)) as [[ex|e1] w1]; simpl in *.
    + destruct (truthy (json_ ex));
        [destruct (getNamesFromJson (json_ ex)) eqn:Hindex|]; simpl;
        rewrite ?Happ; done.
    + by rewrite Happ.
  - destruct (String.eqb (type file) "application/json"); [|exact Hpaired].
    destruct (text file) as [t|e1]; simpl; [|exact Hpaired].
    destruct (JSON_parse t) as [doc|e1];
      [destruct (getNamesFromJson doc) eqn:Hindex|]; simpl; done.
Qed.

End HandlerPaths.

(** ** The identity index, entry by entry *)

Lemma Map_set_keys (k : key) (v : Identity) (m : Map) (k' : key) :
  k' ∈ (Map_set k v m).*1 ↔ k' = k ∨ k' ∈ m.*1.
Proof.
  induction m as [|[k0 v0] m IH]; simpl.
  - rewrite list_elem_of_singleton. split; [by left|]. by intros [?|?%elem_of_nil].
  - destruct (decide (k0 = k)) as [->|Hne]; simpl.
    + rewrite !elem_of_cons. tauto.
    + rewrite !elem_of_cons, IH. tauto.
Qed.

Lemma Map_set_NoDup (k : key) (v : Identity) (m : Map) :
  NoDup m.*1 → NoDup (Map_set k v m).*1.
Proof.
  induction m as [|[k0 v0] m IH]; simpl; intros Hnd.
  - apply NoDup_singleton.
  - apply NoDup_cons in Hnd as [Hk0 Hnd].
    destruct (decide (k0 = k)) as [->|Hne]; simpl.
    + by apply NoDup_cons.
    + apply NoDup_cons. split; [|by apply IH].
      rewrite Map_set_keys. intros [?|?]; done.
Qed.

Lemma Map_set_length (k : key) (v : Identity) (m : Map) :
  (length (Map_set k v m) ≤ S (length m))%nat.
Proof.
  induction m as [|[k0 v0] m IH]; simpl; [lia|].
  destruct (decide (k0 = k)); simpl; lia.
Qed.

Lemma Map_get_Some_keys (k : key) (m : Map) :
  is_Some (Map_get k m) ↔ k ∈ m.*1.
Proof.
  induction m as [|[k0 v0] m IH]; simpl.
  - split; [by intros [? ?] | by intros ?%elem_of_nil].
  - rewrite elem_of_cons. destruct (decide (k0 = k)) as [->|Hne].
    + split; [by left | by eexists].
    + rewrite IH. split; [by right | by intros [?|?]].
Qed.

(** The walk of a list of records from a map [m]: the keys stay distinct,
    they are those of [m] and the personIds of the records, and every
    value found comes from [m] or from a record of its key. *)
Lemma fold_collect_entries (l : list (ref * json)) (m : Map) :
  let index := fold_left collect_placed l m in
  (NoDup m.*1 → NoDup index.*1) ∧
  (length index ≤ length m + length l)%nat ∧
  (∀ k, k ∈ index.*1 ↔ k ∈ m.*1 ∨ ∃ r visit, (r, visit) ∈ l ∧ personId r visit = k) ∧
  (∀ k i, Map_get k index = Some i →
          Map_get k m = Some i ∨
          ∃ r visit, (r, visit) ∈ l ∧ personId r visit = k ∧ identity_of visit = i).
Proof.
  revert m. induction l as [|[r visit] l IH]; intros m; cbv zeta; simpl.
  - split; [done|]. split; [lia|]. split; [|by left].
    intros k. split; [by left|]. intros [?|(? & ? & ?%elem_of_nil & _)]; done.
  - destruct (IH (collect_placed m (r, visit))) as (Hnd & Hlen & Hkeys & Hvals).
    change (collect_placed m (r, visit))
      with (Map_set (personId r visit) (identity_of visit) m) in *.
    split; [|split; [|split]].
    + intros Hm. by apply Hnd, Map_set_NoDup.
    + pose proof (Map_set_length (personId r visit) (identity_of visit) m). lia.
    + intros k. rewrite Hkeys, Map_set_keys. split.
      * intros [[->|?]|(r' & v' & Hin & Hk)]; [right | by left | right].
        -- exists r, visit. split; [by left | done].
        -- exists r', v'. split; [by right | done].
      * intros [?|(r' & v' & Hin & Hk)]; [by left; right|].
        apply elem_of_cons in Hin as [[= -> ->]|Hin]; [by left; left|].
        right. by exists r', v'.
    + intros k i Hget. destruct (Hvals k i Hget) as [Hm|(r' & v' & Hin & Hk & Hi)].
      * destruct (decide (personId r visit = k)) as [<-|Hne].
        -- rewrite Map_get_set_eq in Hm. injection Hm as <-.
           right. exists r, visit. split; [by left | done].
        -- rewrite Map_get_set_ne in Hm by done. by left.
      * right. exists r', v'. split; [by right | done].
Qed.

(** What one of the two walks gives, for every document. *)
Lemma collect_visits_cases (c : string) (doc : json) (names : Map) :
  collect_visits c doc names =
  match visits_of c doc with
  | Some items => Ok (fold_left collect_placed (placed c items) names)
  | None => Throw TypeError
  end.
Proof.
  destruct (visits_of c doc) as [items|] eqn:Hv; [by apply collect_visits_fold|].
  unfold visits_of, collect_visits, forEach in *.
  destruct (Some doc ?. "couch_visits" ?. c) as [v|]; [|done].
  destruct v; try done; by destruct (truthy _).
Qed.

Lemma visits_of_None (c : string) (doc : json) :
  visits_of c doc = None ↔ unwalkable c doc.
Proof.
  unfold visits_of, unwalkable. split.
  - destruct (Some doc ?. "couch_visits" ?. c) as [v|]; [|done].
    intros Hv. exists v. split; [done|].
    destruct v; try done; (destruct (truthy _) eqn:Ht; [|done]); by split.
  - intros (v & -> & Ht & Harr). destruct v as [| | | |l|]; try by rewrite Ht.
    by destruct (Harr l).
Qed.

(** X9.  The index holds one entry per personId met in the two
    collections and nothing else: its keys are pairwise distinct, they
    are exactly the personIds of the records, every value is the
    displayName and username of a record of that personId, and there are
    no more entries than records; so a document without visit records
    gives the empty index. *)
Theorem index_has_one_entry_per_person (doc : json) (hosts surfers : list json) :
  visits_of "host_couch_visits" doc = Some hosts →
  visits_of "surfer_couch_visits" doc = Some surfers →
  ∃ index : Map,
    getNamesFromJson doc = Ok index ∧
    NoDup index.*1 ∧
    (length index ≤ length hosts + length surfers)%nat ∧
    (∀ k, is_Some (Map_get k index) ↔
          ∃ r visit, (r, visit) ∈ visit_sequence hosts surfers ∧ personId r visit = k) ∧
    (∀ k i, Map_get k index = Some i →
            ∃ r visit, (r, visit) ∈ visit_sequence hosts surfers ∧
                       personId r visit = k ∧ identity_of visit = i).
Proof.
  intros Hh Hs. eexists. split; [by apply getNamesFromJson_fold|].
  destruct (fold_collect_entries (visit_sequence hosts surfers) [])
    as (Hnd & Hlen & Hkeys & Hvals).
  split; [apply Hnd, NoDup_nil_2|]. split.
  - etrans; [exact Hlen|]. unfold visit_sequence, placed.
    rewrite length_app, !length_imap. simpl. lia.
  - split.
    + intros k. rewrite Map_get_Some_keys, Hkeys. split; [|by right].
      intros [?%elem_of_nil|?]; done.
    + intros k i Hget. by destruct (Hvals k i Hget) as [?|?].
Qed.

(** X10.  [getNamesFromJson] fails exactly when one of the two visit
    collections is truthy without being an array (a string, a number, an
    object, [true]): the call of [forEach] on it throws a TypeError, and
    no other exception can come out. *)
Theorem index_fails_on_unwalkable_collection (doc : json) :
  (∀ e, getNamesFromJson doc = Throw e → e = TypeError) ∧
  (getNamesFromJson doc = Throw TypeError ↔
   unwalkable "host_couch_visits" doc ∨ unwalkable "surfer_couch_visits" doc).
Proof.
  rewrite <- !visits_of_None. unfold getNamesFromJson.
  rewrite collect_visits_cases.
  destruct (visits_of "host_couch_visits" doc) as [hosts|].
  - rewrite collect_visits_cases.
    destruct (visits_of "surfer_couch_visits" doc) as [surfers|].
    + split; [done|]. split; [done | by intros [?|?]].
    + split; [by intros e [= <-]|]. split; [by right | done].
  - split; [by intros e [= <-]|]. split; [by left | done].
Qed.

(** ** The session cache, write by write *)

Section CacheSteps.
Context {platform : Platform}.

(** X11.  [setCacheValue] never throws and touches nothing but the
    storage and the two logs: either the value is stored under its
    prefixed key and every other item is as before, or the storage is
    unchanged and the exception of the storage (disabled, or full) is
    sent once to Sentry and once to the console. *)
Theorem setCacheValue_is_best_effort (key value : string) (w : World) :
  ∃ w', setCacheValue key value w = (Ok tt, w') ∧
        app w' = app w ∧ alerts w' = alerts w ∧ objectURLs w' = objectURLs w ∧
        ((items (sessionStorage w') !! cache_key key = Some value ∧
          (∀ k, k ≠ cache_key key →
                items (sessionStorage w') !! k = items (sessionStorage w) !! k) ∧
          sentry w' = sentry w ∧ console w' = console w) ∨
         (∃ e, (e = SecurityError ∨ e = QuotaExceededError) ∧
               sessionStorage w' = sessionStorage w ∧
               sentry w' = sentry w ++ [e] ∧ console w' = console w ++ [e])).
Proof.
  unfold setCacheValue, try_catch, sessionStorage_setItem, setItem.
  destruct (disabled (sessionStorage w)) eqn:Hd.
  - eexists. split; [reflexivity|]. repeat split. right. exists SecurityError.
    repeat split. by left.
  - destruct (Nat.leb _ _).
    + eexists. split; [reflexivity|]. repeat split. left. simpl. repeat split.
      * apply lookup_insert_eq.
      * intros k Hk. by apply lookup_insert_ne.
    + eexists. split; [reflexivity|]. repeat split. right. exists QuotaExceededError.
      repeat split. by right.
Qed.

(** One write, as the effect sees it. *)
Lemma setCacheValue_items (key value : string) (w : World) :
  ∃ w', setCacheValue key value w = (Ok tt, w') ∧ app w' = app w ∧
        (items (sessionStorage w') = <[cache_key key := value]> (items (sessionStorage w)) ∨
         items (sessionStorage w') = items (sessionStorage w)).
Proof.
  destruct (setCacheValue_cases key value w) as [(st & _ & Hi & _ & ->)|(e & ->)];
    eexists; (split; [reflexivity|]); (split; [reflexivity|]); simpl; [by left | by right].
Qed.

(** X12.  The three writes of the effect are independent: the effect
    never throws and leaves the state of the component alone; after it
    each of the three items holds its new value or, when its own write
    was refused, what it held before, whatever happened to the two other
    writes; no other item of the storage is touched.  Without storage
    the effect does nothing at all. *)
Theorem App_effect_writes_are_independent (w : World) :
  App_effect false w = (Ok tt, w) ∧
  ∃ w', App_effect true w = (Ok tt, w') ∧
        app w' = app w ∧
        let before := items (sessionStorage w) in
        let after := items (sessionStorage w') in
        (after !! cache_key "file_date" = Some (fileDate (app w)) ∨
         after !! cache_key "file_date" = before !! cache_key "file_date") ∧
        (after !! cache_key "profile_images" = Some (JSON_stringify (profileImages (app w))) ∨
         after !! cache_key "profile_images" = before !! cache_key "profile_images") ∧
        (after !! cache_key "profile" = Some (JSON_stringify (profile (app w))) ∨
         after !! cache_key "profile" = before !! cache_key "profile") ∧
        (∀ k, k ∉ List.map cache_key cache_fields → after !! k = before !! k).
Proof.
  split; [reflexivity|].
  unfold App_effect. unfold mbind, ST_bind.
  destruct (setCacheValue_items "file_date" (fileDate (app w)) w) as (w1 & -> & Ha1 & Hi1).
  destruct (setCacheValue_items "profile_images" (JSON_stringify (profileImages (app w))) w1)
    as (w2 & -> & Ha2 & Hi2).
  destruct (setCacheValue_items "profile" (JSON_stringify (profile (app w))) w2)
    as (w3 & -> & Ha3 & Hi3).
  exists w3. split; [reflexivity|]. split; [congruence|]. cbv zeta.
  assert (Hne : ∀ a b, a ≠ b → cache_key a ≠ cache_key b)
    by (intros a b Hab Heq%cache_key_inj; done).
  repeat split.
  - destruct Hi1 as [Hi1|Hi1], Hi2 as [Hi2|Hi2], Hi3 as [Hi3|Hi3];
      rewrite Hi3, Hi2, Hi1;
      rewrite ?(lookup_insert_ne _ (cache_key "profile")) by (by apply Hne);
      rewrite ?(lookup_insert_ne _ (cache_key "profile_images")) by (by apply Hne);
      rewrite ?lookup_insert_eq; auto.
  - destruct Hi1 as [Hi1|Hi1], Hi2 as [Hi2|Hi2], Hi3 as [Hi3|Hi3];
      rewrite Hi3, Hi2, Hi1;
      rewrite ?(lookup_insert_ne _ (cache_key "profile")) by (by apply Hne);
      rewrite ?lookup_insert_eq;
      rewrite ?(lookup_insert_ne _ (cache_key "file_date")) by (by apply Hne);
      auto.
  - destruct Hi1 as [Hi1|Hi1], Hi2 as [Hi2|Hi2], Hi3 as [Hi3|Hi3];
      rewrite Hi3, Hi2, Hi1;
      rewrite ?lookup_insert_eq;
      rewrite ?(lookup_insert_ne _ (cache_key "profile_images")) by (by apply Hne);
      rewrite ?(lookup_insert_ne _ (cache_key "file_date")) by (by apply Hne);
      auto.
  - intros k Hk.
    assert (Hk' : ∀ f, In f cache_fields → cache_key f ≠ k).
    { intros f Hf <-. apply Hk, list_elem_of_In, in_map, Hf. }
    destruct Hi1 as [Hi1|Hi1], Hi2 as [Hi2|Hi2], Hi3 as [Hi3|Hi3];
      rewrite Hi3, Hi2, Hi1;
      rewrite ?lookup_insert_ne by (apply Hk'; simpl; auto); reflexivity.
Qed.

(** The three items after an effect of which no write was reported. *)
Lemma App_effect_all_stored (w w' : World) :
  App_effect true w = (Ok tt, w') →
  sentry w' = sentry w →
  disabled (sessionStorage w') = false ∧
  items (sessionStorage w') !! cache_key "file_date" = Some (fileDate (app w)) ∧
  items (sessionStorage w') !! cache_key "profile_images"
  = Some (JSON_stringify (profileImages (app w))) ∧
  items (sessionStorage w') !! cache_key "profile"
  = Some (JSON_stringify (profile (app w))).
Proof.
  unfold App_effect. unfold mbind, ST_bind.
  destruct (setCacheValue_cases "file_date" (fileDate (app w)) w)
    as [(st1 & _ & Hi1 & Hd1 & ->)|(e1 & ->)];
  match goal with |- context [setCacheValue "profile_images" ?v ?w1] =>
    destruct (setCacheValue_cases "profile_images" v w1)
      as [(st2 & _ & Hi2 & Hd2 & ->)|(e2 & ->)]
  end;
  match goal with |- context [setCacheValue "profile" ?v ?w2] =>
    destruct (setCacheValue_cases "profile" v w2)
      as [(st3 & _ & Hi3 & Hd3 & ->)|(e3 & ->)]
  end;
  intros [= <-]; simpl in *; intros Hsentry;
  try (apply (f_equal length) in Hsentry; rewrite ?length_app in Hsentry;
       simpl in Hsentry; lia).
  split; [done|]. rewrite Hi3, Hi2, Hi1.
  repeat split.
  - rewrite !lookup_insert_ne by (intros Heq%cache_key_inj; discriminate).
    apply lookup_insert_eq.
  - rewrite lookup_insert_ne by (intros Heq%cache_key_inj; discriminate).
    apply lookup_insert_eq.
  - apply lookup_insert_eq.
Qed.

(** X13.  A refresh of the page restores what was shown: when the
    effect has stored the state without any write being reported, the
    document is truthy and paired with its index, and the document and
    the assets survive [JSON.stringify] followed by [JSON.parse], the
    first render of [App] on that storage starts from the same document,
    the same assets, the same index and the same fileDate, with the flag
    cleared and nothing reported. *)
Theorem refresh_restores_state (w w1 : World) :
  App_effect true w = (Ok tt, w1) →
  sentry w1 = sentry w →
  truthy (profile (app w)) = true →
  truthy (profileImages (app w)) = true →
  JSON_parse (JSON_stringify (profile (app w))) = Ok (profile (app w)) →
  JSON_parse (JSON_stringify (profileImages (app w))) = Ok (profileImages (app w)) →
  getNamesFromJson (profile (app w)) = Ok (names (app w)) →
  ∃ w2, App true w1 = (Ok tt, w2) ∧
        profile (app w2) = profile (app w) ∧
        profileImages (app w2) = profileImages (app w) ∧
        names (app w2) = names (app w) ∧
        fileDate (app w2) = fileDate (app w) ∧
        isProcessing (app w2) = false ∧
        sentry w2 = sentry w1.
Proof.
  intros Heffect Hsentry Htp Hti Hrp Hri Hindex.
  destruct (App_effect_all_stored w w1 Heffect Hsentry) as (Hd & Hdate & Himages & Hprofile).
  assert (Hload : loadFromCache w1 =
    (Ok {| cachedFileDate := Some (JString (fileDate (app w)));
           cachedNames := Some (names (app w));
           cachedProfile := Some (profile (app w));
           cachedProfileImages := Some (profileImages (app w)) |}, w1)).
  { unfold loadFromCache, loadFromCache_try, getItem. rewrite Hd, Hdate, Hprofile, Himages.
    unfold mbind, ST_bind, await, modify, mret, ST_ret. simpl.
    rewrite Hrp. simpl. rewrite Hri. simpl. rewrite Htp. simpl. by rewrite Hindex. }
  unfold App. unfold mbind at 1, ST_bind at 1. rewrite Hload.
  eexists. split; [reflexivity|]. simpl. unfold js_or. simpl. rewrite Htp, Hti.
  repeat split. by destruct (fileDate (app w)).
Qed.

(** X14.  The first render starts from the initial state (no document,
    no assets, an empty index, an empty fileDate, the flag cleared) when
    the storage is not available, when every access to it throws, and
    when it holds none of the three items; it shows no message and
    leaves the storage as it is. *)
Theorem first_render_starts_empty (isStorageAvailable : bool) (w : World) :
  isStorageAvailable = false ∨
  disabled (sessionStorage w) = true ∨
  (JSON_parse "null" = Ok JNull ∧
   ∀ field, In field cache_fields →
            items (sessionStorage w) !! cache_key field = None) →
  ∃ w', App isStorageAvailable w = (Ok tt, w') ∧
        app w' = initial_state ∧
        alerts w' = alerts w ∧
        sessionStorage w' = sessionStorage w.
Proof.
  intros [->|Hcase]; [by eexists|].
  destruct isStorageAvailable; [|by eexists].
  unfold App, loadFromCache, loadFromCache_try, getItem.
  unfold mbind, ST_bind, await, modify, mret, ST_ret.
  destruct (disabled (sessionStorage w)) eqn:Hd; [by eexists|].
  destruct Hcase as [?|[Hnull Hnone]]; [done|].
  rewrite !Hnone by (simpl; auto). simpl. rewrite Hnull. simpl. by eexists.
Qed.

(** X15.  [loadFromCache] never throws, whatever the storage holds, and
    changes nothing but the two logs: an exception met on the way is
    sent once to Sentry and once to the console, and then no index is
    returned.  The fields are filled in the order fileDate, document,
    assets, index, and an exception leaves the fields filled so far: an
    index comes with assets, assets with a document, a document with a
    fileDate. *)
Theorem loadFromCache_never_throws (w : World) :
  ∃ c w', loadFromCache w = (Ok c, w') ∧
          app w' = app w ∧ alerts w' = alerts w ∧
          sessionStorage w' = sessionStorage w ∧ objectURLs w' = objectURLs w ∧
          ((sentry w' = sentry w ∧ console w' = console w) ∨
           (∃ e, sentry w' = sentry w ++ [e] ∧ console w' = console w ++ [e] ∧
                 cachedNames c = None)) ∧
          (is_Some (cachedNames c) → is_Some (cachedProfileImages c)) ∧
          (is_Some (cachedProfileImages c) → is_Some (cachedProfile c)) ∧
          (is_Some (cachedProfile c) → is_Some (cachedFileDate c)).
Proof.
  unfold loadFromCache, loadFromCache_try, getItem.
  unfold mbind, ST_bind, await, modify, mret, ST_ret, Sentry_captureException,
    console_error.
  destruct (disabled (sessionStorage w)); simpl;
    [|destruct (JSON_parse (item_text (items (sessionStorage w) !! cache_key "profile")))
        as [doc|e]; simpl;
      [destruct (JSON_parse
                   (item_text (items (sessionStorage w) !! cache_key "profile_images")))
         as [imgs|e]; simpl;
       [destruct (truthy doc); simpl;
        [destruct (getNamesFromJson doc) as [index|e]; simpl|]|]|]];
    eexists _, _; (split; [reflexivity|]); simpl;
    repeat split;
      first [ done | by intros [? ?] | by eexists | by left
            | by (right; eexists; repeat split)
            | by (intros _; unfold item_value; case_match; eexists) ].
Qed.

End CacheSteps.

(** ** The object URLs of the assets *)

Section AssetUrls.
Context {platform : Platform}.

Lemma image_tasks_urls (zip : JSZip) (files : list ZipObject) (w w' : World)
    (imgs : list json) :
  Promise_all
    (List.map (fun file =>
       blob ← await (zip_file_async (name file) zip);
       blobUrl ← createObjectURL blob;
       mret (JObject [("blobUrl", JString blobUrl); ("id", JString (name file))]))
       files) w = (Ok imgs, w') →
  ∃ urls : list string,
    imgs = zip_with (fun url file => asset url (name file)) urls files ∧
    length urls = length files ∧
    NoDup urls ∧
    Forall (fun url => objectURLs w !! url = None) urls ∧
    dom (objectURLs w') = dom (objectURLs w) ∪ list_to_set urls.
Proof.
  revert w imgs. induction files as [|file files IH]; intros w imgs; simpl.
  - intros [= <- <-]. exists []. repeat split; [constructor | constructor |].
    simpl. by rewrite union_empty_r_L.
  - unfold mbind, ST_bind, await, createObjectURL, mret, ST_ret in *.
    destruct (zip_file_async (name file) zip) as [blob|e]; simpl; [|done].
    set (url := fresh_string "blob:" (objectURLs w)).
    assert (Hfresh : objectURLs w !! url = None) by apply fresh_string_fresh.
    match goal with |- context [Promise_all ?tasks ?w1] =>
      pose proof (IH w1) as IH1; destruct (Promise_all tasks w1) as [[l|e] w2]
    end; [|done].
    intros [= <- <-].
    destruct (IH1 l eq_refl) as (urls & -> & Hlen & Hnd & Hnew & Hdom). simpl in *.
    exists (url :: urls). simpl. split; [done|]. split; [by rewrite Hlen|].
    assert (Hnotin : url ∉ urls).
    { intros Hin. pose proof (proj1 (Forall_forall _ _) Hnew url Hin) as Hnone.
      simpl in Hnone. by rewrite lookup_insert_eq in Hnone. }
    split; [by apply NoDup_cons|]. split.
    + constructor; [done|]. apply Forall_forall. intros u Hu.
      pose proof (proj1 (Forall_forall _ _) Hnew u Hu) as Hnone.
      simpl in Hnone. by apply lookup_insert_None in Hnone as [? _].
    + rewrite Hdom. simpl. rewrite dom_insert_L.
      rewrite (comm_L (∪) {[url]} (dom (objectURLs w))).
      by rewrite (assoc_L (∪)).
Qed.

(** X16.  When the extraction of the images succeeds, the assets are the
    image entries in their order, each under a URL of its own: the URLs
    are pairwise distinct, none of them resolved before the extraction,
    and they are exactly the URLs that the extraction adds. *)
Theorem assets_have_urls_of_their_own (zip : JSZip) (w w' : World) (imgs : list json) :
  getImagesFromZip zip w = (Ok imgs, w') →
  ∃ urls : list string,
    imgs = zip_with (fun url file => asset url (name file)) urls
             (zip_filter is_image_entry zip) ∧
    length urls = length (zip_filter is_image_entry zip) ∧
    NoDup urls ∧
    Forall (fun url => objectURLs w !! url = None) urls ∧
    dom (objectURLs w') = dom (objectURLs w) ∪ list_to_set urls.
Proof.
  unfold getImagesFromZip. unfold mbind at 1, ST_bind at 1. intros Hrun.
  apply (image_tasks_urls zip (zip_filter is_image_entry zip) w w' imgs).
  destruct (Promise_all _ w) as [[l|e] w1]; [|done].
  by injection Hrun as <- <-.
Qed.

End AssetUrls.

(** ** A document that is not an object *)

Section FalsyDocument.
Context {platform : Platform}.

Lemma falsy_document_has_empty_index (doc : json) :
  truthy doc = false → getNamesFromJson doc = Ok [].
Proof. by destruct doc. Qed.

(** X17.  The structured-document path does not test the parsed value:
    a file whose text is a falsy JSON value ([null], [false], [0] or the
    empty string) is committed like any document, with an empty index,
    a scroll to the top and no message, where the archive path would
    show the message of the missing profile. *)
Theorem falsy_document_is_committed (file : File) (w : World) (t : string) (doc : json) :
  type file = "application/json" →
  text file = Ok t →
  JSON_parse t = Ok doc →
  truthy doc = false →
  ∃ w', onDrop (Some [file]) w = (Ok tt, w') ∧
        profile (app w') = doc ∧
        names (app w') = [] ∧
        alerts w' = alerts w ∧
        scrolls w' = S (scrolls w) ∧
        isProcessing (app w') = false.
Proof.
  intros Htype Htext Hdoc Hfalsy.
  exists (committed doc [] (profileImages (app w)) (started file w)). split; [|done].
  rewrite (onDrop_json file w t Htype Htext). simpl.
  by rewrite Hdoc, (falsy_document_has_empty_index doc Hfalsy).
Qed.

End FalsyDocument.

(** ** The further properties on concrete drops *)

Lemma wrong_count_is_refused_witness :
  onDrop (platform := reference) (Some [document_file; photos_file]) world_with_assets
  = (Ok tt, refused JustOneFile world_with_assets) ∧
  onDrop (platform := reference) None world_with_assets
  = (Ok tt, refused NoFiles world_with_assets).
Proof.
  split.
  - apply (wrong_count_is_refused (platform := reference)
             (Some [document_file; photos_file]) world_with_assets).
    intros file. discriminate.
  - apply (wrong_count_is_refused (platform := reference) None world_with_assets).
    intros file. discriminate.
Defined.

Lemma unsupported_type_is_refused_witness :
  onDrop (platform := reference) (Some [picture_file]) world_with_profile
  = (Ok tt, refused UnsupportedType world_with_profile) ∧
  fileDate (app (refused UnsupportedType world_with_profile)) = "Wed May 20 2020".
Proof.
  split; [|reflexivity].
  apply (unsupported_type_is_refused (platform := reference) picture_file world_with_profile);
    discriminate.
Defined.

Lemma unreadable_document_is_reported_witness :
  ∃ w', onDrop (platform := reference) (Some [truncated_file]) world_with_profile
        = (Ok tt, w') ∧
        alerts w' = [FunkyFile] ∧ sentry w' = [SyntaxError] ∧ console w' = [SyntaxError] ∧
        profile (app w') = sample_profile ∧
        profileImages (app w') = JArray [] ∧
        names (app w') = sample_index ∧
        fileDate (app w') = "Fri May 22 2020" ∧
        isProcessing (app w') = false ∧
        scrolls w' = 0.
Proof.
  apply (unreadable_document_is_reported (platform := reference)
           truncated_file world_with_profile "{" SyntaxError eq_refl eq_refl).
  left. reflexivity.
Defined.

Lemma malformed_entry_is_a_missing_profile_witness :
  ∃ w', onDrop (platform := reference) (Some [garbled_file]) fresh_world = (Ok tt, w') ∧
        alerts w' = [NoProfileInZip] ∧
        sentry w' = [SyntaxError] ∧
        console w' = [] ∧
        profile (app w') = EXAMPLE_PROFILE ∧
        profileImages (app w') = JArray [] ∧
        names (app w') = [] ∧
        isProcessing (app w') = false.
Proof.
  apply (malformed_entry_is_a_missing_profile (platform := reference)
           fresh_world garbled_file garbled_archive
           {| name := "export/0.json"; dir := false; content := Ok "<html>" |}
           [ {| name := "export/123456.json"; dir := false;
                content := Ok sample_profile_text |} ]
           "<html>" SyntaxError).
  - reflexivity.
  - reflexivity.
  - compute_done.
  - reflexivity.
  - reflexivity.
  - reflexivity.
  - repeat constructor. by eexists.
Defined.

Lemma one_bad_image_fails_the_drop_witness :
  ∃ e' w', onDrop (platform := reference) (Some [damaged_file]) fresh_world
           = (Throw e', w') ∧
           alerts w' = [] ∧
           profile (app w') = EXAMPLE_PROFILE ∧
           profileImages (app w') = JArray [] ∧
           names (app w') = [] ∧
           isProcessing (app w') = true.
Proof.
  apply (one_bad_image_fails_the_drop (platform := reference)
           fresh_world damaged_file damaged_archive
           {| name := "export/photos/2.png"; dir := false; content := Throw DecodeError |}
           DecodeError).
  - reflexivity.
  - reflexivity.
  - compute_done.
  - simpl. auto.
  - reflexivity.
Defined.

Lemma thrown_drop_commits_nothing_witness :
  let w' := snd (onDrop (platform := reference) (Some [corrupt_file]) world_with_profile) in
  isProcessing (app w') = true ∧
  alerts w' = [] ∧
  scrolls w' = 0 ∧
  profile (app w') = sample_profile ∧
  profileImages (app w') = JArray [] ∧
  names (app w') = sample_index.
Proof.
  apply (thrown_drop_commits_nothing (platform := reference)
           (Some [corrupt_file]) world_with_profile _ DecodeError).
  reflexivity.
Defined.

Lemma index_stays_paired_witness :
  let w' := snd (onDrop (platform := reference) (Some [export_file]) fresh_world) in
  getNamesFromJson (profile (app w')) = Ok (names (app w')).
Proof.
  apply (index_stays_paired (platform := reference) (Some [export_file]) fresh_world).
  reflexivity.
Defined.

Lemma index_has_one_entry_per_person_witness :
  ∃ index : Map,
    getNamesFromJson sample_profile = Ok index ∧
    NoDup index.*1 ∧
    (length index ≤ 3)%nat.
Proof.
  destruct (index_has_one_entry_per_person sample_profile sample_hosts sample_surfers
              eq_refl eq_refl) as (index & Hindex & Hnd & Hlen & _).
  exists index. repeat split; assumption.
Defined.

Lemma refresh_restores_state_witness :
  let w1 := snd (App_effect (platform := reference) true world_with_profile) in
  ∃ w2, App (platform := reference) true w1 = (Ok tt, w2) ∧
        profile (app w2) = sample_profile ∧
        profileImages (app w2) = JArray [] ∧
        names (app w2) = sample_index ∧
        fileDate (app w2) = "Wed May 20 2020" ∧
        isProcessing (app w2) = false ∧
        sentry w2 = sentry w1.
Proof.
  apply (refresh_restores_state (platform := reference) world_with_profile
           (snd (App_effect (platform := reference) true world_with_profile)));
    vm_compute; reflexivity.
Defined.

Lemma first_render_starts_empty_witness :
  (∃ w', App (platform := reference) true fresh_world = (Ok tt, w') ∧
         app w' = initial_state ∧
         alerts w' = [] ∧
         sessionStorage w' = empty_storage 4096) ∧
  (∃ w', App (platform := reference) true disabled_world = (Ok tt, w') ∧
         app w' = initial_state ∧
         alerts w' = [] ∧
         sessionStorage w' = sessionStorage disabled_world).
Proof.
  split.
  - apply (first_render_starts_empty (platform := reference) true fresh_world).
    right. right. split; [reflexivity|]. intros field _. reflexivity.
  - apply (first_render_starts_empty (platform := reference) true disabled_world).
    right. left. reflexivity.
Defined.

Lemma assets_have_urls_of_their_own_witness :
  let run := getImagesFromZip sample_archive fresh_world in
  ∃ urls : list string,
    match fst run with Ok imgs => imgs | Throw _ => [] end
    = zip_with (fun url file => asset url (name file)) urls
        (zip_filter is_image_entry sample_archive) ∧
    length urls = 1 ∧
    NoDup urls ∧
    Forall (fun url => objectURLs fresh_world !! url = None) urls ∧
    dom (objectURLs (snd run)) = dom (objectURLs fresh_world) ∪ list_to_set urls.
Proof.
  apply (assets_have_urls_of_their_own sample_archive fresh_world).
  vm_compute. reflexivity.
Defined.

Lemma falsy_document_is_committed_witness :
  ∃ w', onDrop (platform := reference) (Some [null_document_file]) fresh_world
        = (Ok tt, w') ∧
        profile (app w') = JNull ∧
        names (app w') = [] ∧
        alerts w' = [] ∧
        scrolls w' = 1 ∧
        isProcessing (app w') = false.
Proof.
  apply (falsy_document_is_committed (platform := reference)
           null_document_file fresh_world "null" JNull); reflexivity.
Defined.
